(** * BlitzWare Node SDK: the Express middleware (src/middleware.ts)

    A shallow embedding of the control flow of the request handlers
    [blitzwareAuth], [requireBlitzwareSession], [blitzwareCallback] and
    [blitzwareLogout] over an explicit request world: the session bag, the
    fields attached to the request, and the ordered trace of everything the
    handler does to the outside (session writes, calls to the protocol
    client, log lines, [next()], responses). *)

From stdpp Require Import gmap strings list fin_maps.
From Stdlib Require Import ZArith.

Open Scope string_scope.

(** ** Data model *)

(** Modelled from the spec: [types.ts] is not part of the sources at hand; the
    user profile has an id, a username, an optional email and optional roles. *)
Record BlitzWareUser := {
  user_id : string;
  user_username : string;
  user_email : option string;
  user_roles : option (list string)
}.

(** Modelled from the spec: [TokenResponse] of [types.ts]; [refresh_token] is
    the only optional field. *)
Record TokenResponse := {
  access_token : string;
  token_type : string;
  expires_in : Z;
  scope : string;
  refresh_token : option string
}.

(** What a [catch] clause can receive. [BlitzWareAuthError] (modelled from the
    spec: a code, a message, optional details) is told apart from every other
    thrown value by [instanceof]. *)
Inductive js_error :=
| BlitzWareAuthError (code message : string) (details : option string)
| OtherError (message : string).

(** The session is typed [any]: the values a handler may find in it. *)
Inductive jsval :=
| VUndefined
| VNull
| VBool (b : bool)
| VNum (n : Z)
| VStr (s : string)
| VUser (u : BlitzWareUser).

(** JavaScript truthiness, as used by [!x] and [if (x)]. *)
Definition truthy (v : jsval) : bool :=
  match v with
  | VUndefined | VNull => false
  | VBool b => b
  | VNum n => negb (n =? 0)%Z
  | VStr s => negb (String.eqb s EmptyString)
  | VUser _ => true
  end.

(** An optional string property as a value: absent reads as [undefined]. *)
Definition jsval_of_opt (o : option string) : jsval :=
  match o with
  | Some s => VStr s
  | None => VUndefined
  end.

Abbreviation session := (gmap string jsval).

(** [session[key]]: a missing property reads as [undefined]. *)
Definition session_get (s : session) (key : string) : jsval :=
  default VUndefined (s !! key).

(** ** The protocol client, as the handlers see it

    [BlitzWareAuth.ts] is an external collaborator of the middleware: each
    method is a round trip whose outcome the handler cannot influence, so the
    client is a record of outcomes, one per method and argument. *)
Record BlitzWareAuth := {
  validateTokenAndGetUser : jsval -> js_error + BlitzWareUser;
  refreshToken : jsval -> js_error + TokenResponse;
  getUserInfo : string -> js_error + BlitzWareUser;
  handleCallback :
    list (string * string) -> jsval -> jsval -> js_error + TokenResponse;
  logout : js_error + unit;
  getBaseUrl : string;
  getConfig_clientId : string
}.

(** ** Responses, events and the request world *)

Inductive response :=
| Redirect (location : string)
| Send (status : Z) (body : string).

Inductive log_level := LError | LWarn | LInfo | LDebug.

Inductive event :=
| EvSessionSet (key : string) (v : jsval)
| EvValidateTokenAndGetUser (token : jsval)
| EvRefreshToken (token : jsval)
| EvGetUserInfo (token : string)
| EvHandleCallback (query : list (string * string)) (expectedState codeVerifier : jsval)
| EvLogout
| EvLog (l : log_level) (msg : string)
| EvSetHeader (name value : string)
| EvNext
| EvRespond (r : response).

Definition is_network_call (e : event) : bool :=
  match e with
  | EvValidateTokenAndGetUser _ | EvRefreshToken _ | EvGetUserInfo _
  | EvHandleCallback _ _ _ | EvLogout => true
  | _ => false
  end.

Definition is_session_write (e : event) : bool :=
  match e with EvSessionSet _ _ => true | _ => false end.

Definition network_calls (tr : list event) : list event :=
  List.filter is_network_call tr.

Definition session_writes (tr : list event) : list event :=
  List.filter is_session_write tr.

Fixpoint responses (tr : list event) : list response :=
  match tr with
  | [] => []
  | EvRespond r :: tr' => r :: responses tr'
  | _ :: tr' => responses tr'
  end.

Definition next_called (tr : list event) : bool :=
  existsb (fun e => match e with EvNext => true | _ => false end) tr.

(** The incoming request: what the handlers read from it. *)
Record Request := {
  req_session : option session;
  req_query : list (string * string);
  req_protocol : string;
  req_host : option string
}.

(** The mutable part: the session object (shared with the store, mutated in
    place), the two fields the middleware attaches to the request, and the
    trace. *)
Record world := {
  w_session : option session;
  w_blitzwareUser : jsval;
  w_blitzwareAccessToken : jsval;
  w_trace : list event
}.

Definition init_world (req : Request) : world :=
  {| w_session := req_session req;
     w_blitzwareUser := VUndefined;
     w_blitzwareAccessToken := VUndefined;
     w_trace := [] |}.

(** ** A small state-and-exception monad for the handler bodies *)

Definition M (A : Type) : Type := world -> (js_error + A) * world.

Definition ret {A} (a : A) : M A := fun w => (inr a, w).

Definition bind {A B} (m : M A) (k : A -> M B) : M B :=
  fun w =>
    match m w with
    | (inr a, w') => k a w'
    | (inl e, w') => (inl e, w')
    end.

Definition throw {A} (e : js_error) : M A := fun w => (inl e, w).

(** [try { body } catch (error) { handler }] *)
Definition try_catch {A} (body : M A) (handler : js_error -> M A) : M A :=
  fun w =>
    match body w with
    | (inr a, w') => (inr a, w')
    | (inl e, w') => handler e w'
    end.

Declare Scope js_scope.
Delimit Scope js_scope with js.
Notation "'let*' x ':=' c 'in' k" := (bind c (fun x => k))
  (at level 10, x name, c at level 100, k at level 200) : js_scope.
Notation "c ';;' k" := (bind c (fun _ => k))
  (at level 100, k at level 200, right associativity) : js_scope.

Definition emit (e : event) : M unit :=
  fun w => (inr tt,
            {| w_session := w_session w;
               w_blitzwareUser := w_blitzwareUser w;
               w_blitzwareAccessToken := w_blitzwareAccessToken w;
               w_trace := w_trace w ++ [e] |}).

(** [req.session] *)
Definition get_session : M (option session) :=
  fun w => (inr (w_session w), w).

(** [session[key]]; reading a property of [undefined] throws. *)
Definition session_read (key : string) : M jsval :=
  fun w =>
    match w_session w with
    | Some s => (inr (session_get s key), w)
    | None => throw (OtherError "TypeError: Cannot read properties of undefined") w
    end.

(** [session[key] = v] *)
Definition session_write (key : string) (v : jsval) : M unit :=
  fun w =>
    match w_session w with
    | Some s =>
        (inr tt,
         {| w_session := Some (<[key := v]> s);
            w_blitzwareUser := w_blitzwareUser w;
            w_blitzwareAccessToken := w_blitzwareAccessToken w;
            w_trace := w_trace w ++ [EvSessionSet key v] |})
    | None => throw (OtherError "TypeError: Cannot set properties of undefined") w
    end.

(** [(req as any).blitzwareUser = v] *)
Definition set_blitzwareUser (v : jsval) : M unit :=
  fun w => (inr tt,
            {| w_session := w_session w;
               w_blitzwareUser := v;
               w_blitzwareAccessToken := w_blitzwareAccessToken w;
               w_trace := w_trace w |}).

(** [(req as any).blitzwareAccessToken = v] *)
Definition set_blitzwareAccessToken (v : jsval) : M unit :=
  fun w => (inr tt,
            {| w_session := w_session w;
               w_blitzwareUser := w_blitzwareUser w;
               w_blitzwareAccessToken := v;
               w_trace := w_trace w |}).

(** [await client.method(args)]: the call is recorded, its outcome is the
    client's. *)
Definition await {A} (e : event) (outcome : js_error + A) : M A :=
  fun w =>
    (outcome,
     {| w_session := w_session w;
        w_blitzwareUser := w_blitzwareUser w;
        w_blitzwareAccessToken := w_blitzwareAccessToken w;
        w_trace := w_trace w ++ [e] |}).

Definition log (l : log_level) (msg : string) : M unit := emit (EvLog l msg).
Definition res_redirect (url : string) : M unit := emit (EvRespond (Redirect url)).
Definition res_status_send (status : Z) (body : string) : M unit :=
  emit (EvRespond (Send status body)).
Definition res_setHeader (name value : string) : M unit := emit (EvSetHeader name value).
Definition next : M unit := emit EvNext.

Definition when (b : bool) (m : M unit) : M unit := if b then m else ret tt.

(** ** Configuration objects and their defaults *)

Record BlitzWareMiddlewareConfig := {
  blitzware : BlitzWareAuth;
  accessTokenProperty : option string;
  refreshTokenProperty : option string;
  userProperty : option string;
  autoRefresh : option bool;
  loginUrl : option string;
  attachUser : option bool
}.

(** ** [blitzwareAuth]: the token-validated middleware *)

Section blitzwareAuth.
Variable config : BlitzWareMiddlewareConfig.

(* the destructuring defaults *)
Let bw := blitzware config.
Definition accessTokenKey : string := default "accessToken" (accessTokenProperty config).
Definition refreshTokenKey : string := default "refreshToken" (refreshTokenProperty config).
Definition userKey : string := default "user" (userProperty config).
Definition autoRefreshOn : bool := default true (autoRefresh config).
Definition loginTarget : string := default "/login" (loginUrl config).
Definition attachUserOn : bool := default true (attachUser config).

(** The three assignments that forget the session's credentials. *)
Definition clear_session_fields : M unit :=
  (session_write accessTokenKey VNull ;;
   session_write refreshTokenKey VNull ;;
   session_write userKey VNull)%js.

(** Lines 106-129: the body of the inner [try] on the refresh path. *)
Definition refresh_and_attach : M unit :=
  (let* rt := session_read refreshTokenKey in
   let* tokenResponse := await (EvRefreshToken rt) (refreshToken bw rt) in
   session_write accessTokenKey (VStr (access_token tokenResponse)) ;;
   when (truthy (jsval_of_opt (refresh_token tokenResponse)))
     (session_write refreshTokenKey (jsval_of_opt (refresh_token tokenResponse))) ;;
   let* user :=
     await (EvGetUserInfo (access_token tokenResponse))
           (getUserInfo bw (access_token tokenResponse)) in
   when attachUserOn
     (set_blitzwareUser (VUser user) ;;
      set_blitzwareAccessToken (VStr (access_token tokenResponse))) ;;
   session_write userKey (VUser user) ;;
   next)%js.

(** Lines 103-146: the [catch] of the validation [try]. *)
Definition on_validation_error (error : js_error) : M unit :=
  (let* rt := (if autoRefreshOn then session_read refreshTokenKey
               else ret (VBool false)) in
   if truthy rt then
     try_catch refresh_and_attach
       (fun refreshError =>
          log LWarn "Token refresh failed" ;;
          clear_session_fields ;;
          res_redirect loginTarget)
   else
     (log LWarn "Token validation failed" ;;
      clear_session_fields ;;
      res_redirect loginTarget))%js.

(** Lines 90-102: the validation [try]. *)
Definition validate_and_attach (accessToken : jsval) : M unit :=
  (let* user :=
     await (EvValidateTokenAndGetUser accessToken)
           (validateTokenAndGetUser bw accessToken) in
   when attachUserOn
     (set_blitzwareUser (VUser user) ;;
      set_blitzwareAccessToken accessToken) ;;
   session_write userKey (VUser user) ;;
   next)%js.

Definition blitzwareAuth : M unit :=
  try_catch
    (let* session := get_session in
     match session with
     | None =>
         log LError "Session not found. Make sure express-session middleware is configured." ;;
         res_status_send 500 "Session configuration error"
     | Some _ =>
         let* accessToken := session_read accessTokenKey in
         if negb (truthy accessToken) then res_redirect loginTarget
         else try_catch (validate_and_attach accessToken) on_validation_error
     end)%js
    (fun error =>
       log LError "BlitzWare middleware error" ;;
       res_status_send 500 "Authentication error")%js.
End blitzwareAuth.

(** ** [requireBlitzwareSession]: the session-only middleware

    Its configuration is [Pick<BlitzWareMiddlewareConfig, "userProperty" |
    "loginUrl" | "attachUser">]; its logger is the no-op default logger, so
    its log line leaves no trace. *)
Record SessionOnlyConfig := {
  so_userProperty : option string;
  so_loginUrl : option string;
  so_attachUser : option bool
}.

Definition requireBlitzwareSession (config : SessionOnlyConfig) : M unit :=
  (let* session := get_session in
   match session with
   | None => res_status_send 500 "Session configuration error"
   | Some _ =>
       let* user := session_read (default "user" (so_userProperty config)) in
       if negb (truthy user) then res_redirect (default "/login" (so_loginUrl config))
       else
         (when (default true (so_attachUser config)) (set_blitzwareUser user) ;;
          next)
   end)%js.

(** ** The platform's [URL] class, as far as the callback handler uses it

    [new URL(input, base)] parses (or throws); [url.searchParams] is the
    ordered list of name-value pairs of the query; [url.toString()]
    serialises. Parsing and serialising belong to the runtime and stay
    parameters; [searchParams.set] follows the URL standard: the first pair
    with that name takes the value and the others are removed, or a new pair
    is appended. *)
Record URL := {
  url_location : string;                     (* scheme, authority and path *)
  url_searchParams : list (string * string);
  url_hash : string
}.

Definition has_name (name : string) (p : string * string) : bool :=
  String.eqb (fst p) name.

Fixpoint params_set (name value : string) (l : list (string * string))
  : list (string * string) :=
  match l with
  | [] => [(name, value)]
  | p :: l' =>
      if has_name name p
      then (name, value) :: List.filter (fun q => negb (has_name name q)) l'
      else p :: params_set name value l'
  end.

(** [url.searchParams.get(name)] *)
Definition params_get (name : string) (l : list (string * string)) : option string :=
  snd <$> List.find (has_name name) l.

(** [url.searchParams.set(name, value)] *)
Definition searchParams_set (name value : string) (u : URL) : URL :=
  {| url_location := url_location u;
     url_searchParams := params_set name value (url_searchParams u);
     url_hash := url_hash u |}.

Definition searchParams_get (name : string) (u : URL) : option string :=
  params_get name (url_searchParams u).

Record Platform := {
  URL_new : string -> string -> js_error + URL;
  URL_toString : URL -> string
}.

(** ** [blitzwareCallback]: the OAuth callback route handler *)

Record CallbackConfig := {
  cb_blitzware : BlitzWareAuth;
  cb_successRedirect : option string;
  cb_errorRedirect : option string;
  cb_accessTokenProperty : option string;
  cb_refreshTokenProperty : option string;
  cb_userProperty : option string;
  cb_stateProperty : option string;
  cb_codeVerifierProperty : option string
}.

Section blitzwareCallback.
Variable platform : Platform.
Variable config : CallbackConfig.
Variable req : Request.

Let bw := cb_blitzware config.
Definition cb_successTarget : string := default "/" (cb_successRedirect config).
Definition cb_errorTarget : string :=
  default "/login?error=auth_failed" (cb_errorRedirect config).
Definition cb_accessTokenKey : string :=
  default "accessToken" (cb_accessTokenProperty config).
Definition cb_refreshTokenKey : string :=
  default "refreshToken" (cb_refreshTokenProperty config).
Definition cb_userKey : string := default "user" (cb_userProperty config).
Definition cb_stateKey : string := default "oauthState" (cb_stateProperty config).
Definition cb_codeVerifierKey : string :=
  default "codeVerifier" (cb_codeVerifierProperty config).

(** [`${req.protocol}://${req.get("host")}`]; a missing header prints as
    [undefined]. *)
Definition request_base : string :=
  req_protocol req ++ "://" ++ default "undefined" (req_host req).

(** Lines 242-266: the [try] body once the session is known to exist. *)
Definition callback_exchange : M unit :=
  (let* expectedState := session_read cb_stateKey in
   let* codeVerifier := session_read cb_codeVerifierKey in
   let* tokenResponse :=
     await (EvHandleCallback (req_query req) expectedState codeVerifier)
           (handleCallback bw (req_query req) expectedState codeVerifier) in
   session_write cb_accessTokenKey (VStr (access_token tokenResponse)) ;;
   when (truthy (jsval_of_opt (refresh_token tokenResponse)))
     (session_write cb_refreshTokenKey (jsval_of_opt (refresh_token tokenResponse))) ;;
   let* user :=
     await (EvGetUserInfo (access_token tokenResponse))
           (getUserInfo bw (access_token tokenResponse)) in
   session_write cb_userKey (VUser user) ;;
   session_write cb_stateKey VNull ;;
   session_write cb_codeVerifierKey VNull ;;
   res_redirect cb_successTarget)%js.

(** The parameter the [catch] clause adds to the failure URL. *)
Definition with_error_param (error : js_error) (url : URL) : URL :=
  match error with
  | BlitzWareAuthError code _ _ => searchParams_set "error_code" code url
  | OtherError _ => searchParams_set "error" "auth_failed" url
  end.

(** Lines 267-283: the [catch] clause. *)
Definition callback_on_error (error : js_error) : M unit :=
  (log LWarn "OAuth callback failed" ;;
   let* url := (fun w => (URL_new platform cb_errorTarget request_base, w)) in
   res_redirect (URL_toString platform (with_error_param error url)))%js.

Definition blitzwareCallback : M unit :=
  try_catch
    (let* session := get_session in
     match session with
     | None =>
         log LError "Session not found. Make sure express-session middleware is configured." ;;
         res_status_send 500 "Session configuration error"
     | Some _ => callback_exchange
     end)%js
    callback_on_error.
End blitzwareCallback.

(** ** [blitzwareLogout]: the logout route handler *)

Record LogoutConfig := {
  lo_blitzware : BlitzWareAuth;
  lo_redirectUrl : option string;
  lo_accessTokenProperty : option string;
  lo_refreshTokenProperty : option string;
  lo_userProperty : option string;
  lo_frontChannel : option bool
}.

(** [s.replace(/\/$/, ...)] with the empty replacement: drops one slash at
    the very end. *)
Fixpoint strip_trailing_slash (s : string) : string :=
  match s with
  | EmptyString => EmptyString
  | String c s' =>
      match s' with
      | EmptyString => if Ascii.eqb c (Ascii.ascii_of_nat 47) then EmptyString else s
      | String _ _ => String c (strip_trailing_slash s')
      end
  end.

Definition dq : string := String (Ascii.ascii_of_nat 34) EmptyString.
Definition nl : string := String (Ascii.ascii_of_nat 10) EmptyString.
Definition bytes (l : list nat) : string :=
  List.fold_right (fun n s => String (Ascii.ascii_of_nat n) s) EmptyString l.

(** The two places where the page's script leaves for the destination. *)
Definition navigate_line (redirectUrl : string) : string :=
  "            window.location.replace('" ++ redirectUrl ++ "');".
Definition fallback_navigate_line (redirectUrl : string) : string :=
  "          setTimeout(function(){ window.location.replace('" ++ redirectUrl ++ "'); }, 500);".

(** Lines 401-432: the page of the front-channel logout, line by line. *)
Definition logoutPage (logoutUrl clientId redirectUrl : string) : string :=
  String.concat nl
    ["<!doctype html>";
     "<html>";
     "  <head>";
     "    <meta http-equiv=" ++ dq ++ "referrer" ++ dq ++ " content=" ++ dq ++ "no-referrer" ++ dq ++ ">";
     "    <meta charset=" ++ dq ++ "utf-8" ++ dq ++ ">";
     "    <title>Logging out" ++ bytes [195; 162; 226; 130; 172; 194; 166] ++ "</title>";
     "  </head>";
     "  <body>";
     "    <form id=" ++ dq ++ "logoutForm" ++ dq ++ " method=" ++ dq ++ "POST" ++ dq ++ " action=" ++ dq ++ logoutUrl ++ dq ++ ">";
     "      <input type=" ++ dq ++ "hidden" ++ dq ++ " name=" ++ dq ++ "client_id" ++ dq ++ " value=" ++ dq ++ clientId ++ dq ++ ">";
     "    </form>";
     "    <script>";
     "      (function() {";
     "        try {";
     "          // Try fetch with credentials first";
     "          fetch('" ++ logoutUrl ++ "', {";
     "            method: 'POST',";
     "            credentials: 'include',";
     "            headers: { 'Content-Type': 'application/json' },";
     "            body: JSON.stringify({ client_id: '" ++ clientId ++ "' })";
     "          }).catch(function(){ /* ignore */ }).finally(function(){";
     navigate_line redirectUrl;
     "          });";
     "        } catch (e) {";
     "          // Fallback: submit a standard POST form";
     "          document.getElementById('logoutForm').submit();";
     fallback_navigate_line redirectUrl;
     "        }";
     "      })();";
     "    </script>";
     "  </body>";
     "</html>"].

Section blitzwareLogout.
Variable config : LogoutConfig.

Let bw := lo_blitzware config.
Definition lo_redirectTarget : string := default "/" (lo_redirectUrl config).
Definition lo_accessTokenKey : string :=
  default "accessToken" (lo_accessTokenProperty config).
Definition lo_refreshTokenKey : string :=
  default "refreshToken" (lo_refreshTokenProperty config).
Definition lo_userKey : string := default "user" (lo_userProperty config).
Definition lo_frontChannelOn : bool := default true (lo_frontChannel config).

Definition logoutUrl_of_client : string :=
  strip_trailing_slash (getBaseUrl bw) ++ "/logout".

(** Lines 393-434: the browser performs the logout request itself. *)
Definition front_channel_logout : M unit :=
  (res_setHeader "Content-Type" "text/html; charset=utf-8" ;;
   res_status_send 200
     (logoutPage logoutUrl_of_client (getConfig_clientId bw) lo_redirectTarget))%js.

(** Lines 436-442: server-to-server logout, its failure swallowed. *)
Definition back_channel_logout : M unit :=
  (try_catch (await EvLogout (logout bw))
     (fun error => log LWarn "Service logout (back-channel) failed") ;;
   res_redirect lo_redirectTarget)%js.

Definition blitzwareLogout : M unit :=
  try_catch
    (let* session := get_session in
     match session with
     | None =>
         log LError "Session not found. Make sure express-session middleware is configured." ;;
         res_redirect lo_redirectTarget
     | Some _ =>
         session_write lo_accessTokenKey VNull ;;
         session_write lo_refreshTokenKey VNull ;;
         session_write lo_userKey VNull ;;
         if lo_frontChannelOn then front_channel_logout
         else back_channel_logout
     end)%js
    (fun error =>
       log LError "Logout error" ;;
       res_redirect lo_redirectTarget)%js.
End blitzwareLogout.

(** Running a handler on a request. *)
Definition run (h : M unit) (req : Request) : world := snd (h (init_world req)).
Definition completes (h : M unit) (req : Request) : Prop :=
  fst (h (init_world req)) = inr tt.


(** ** Descriptions used in the statements *)

(** Lines 111-115 (and 252-256 of the callback): the writes that store a
    token response, and the session they produce. *)
Definition token_writes (aKey rKey : string) (tr : TokenResponse) : list event :=
  EvSessionSet aKey (VStr (access_token tr)) ::
  (if truthy (jsval_of_opt (refresh_token tr))
   then [EvSessionSet rKey (jsval_of_opt (refresh_token tr))]
   else []).

Definition with_tokens (aKey rKey : string) (tr : TokenResponse)
    (s : gmap string jsval) : gmap string jsval :=
  if truthy (jsval_of_opt (refresh_token tr))
  then <[rKey := jsval_of_opt (refresh_token tr)]> (<[aKey := VStr (access_token tr)]> s)
  else <[aKey := VStr (access_token tr)]> s.

(** What every abandoned authentication leaves behind: the three fields
    cleared, then the redirect to the login URL, nothing attached. *)
Definition abandoned (cfg : BlitzWareMiddlewareConfig) (s : gmap string jsval)
    (pre : list event) (w : world) : Prop :=
  w_session w =
    Some (<[userKey cfg := VNull]>
            (<[refreshTokenKey cfg := VNull]> (<[accessTokenKey cfg := VNull]> s))) /\
  w_trace w =
    (pre ++ [EvSessionSet (accessTokenKey cfg) VNull;
             EvSessionSet (refreshTokenKey cfg) VNull;
             EvSessionSet (userKey cfg) VNull;
             EvRespond (Redirect (loginTarget cfg))])%list /\
  w_blitzwareUser w = VUndefined /\
  w_blitzwareAccessToken w = VUndefined.

(** The [try] of the callback handler throws [e]: either [handleCallback]
    rejects, or it resolves and the user-info call rejects. *)
Definition callback_fails_with (cfg : CallbackConfig) (req : Request)
    (s : gmap string jsval) (e : js_error) : Prop :=
  let outcome :=
    handleCallback (cb_blitzware cfg) (req_query req)
      (session_get s (cb_stateKey cfg)) (session_get s (cb_codeVerifierKey cfg)) in
  outcome = inl e \/
  exists tr, outcome = inr tr /\
             getUserInfo (cb_blitzware cfg) (access_token tr) = inl e.

(** What the [catch] clause of the callback handler appends to the trace. *)
Definition failure_tail (platform : Platform) (cfg : CallbackConfig)
    (req : Request) (e : js_error) : list event :=
  EvLog LWarn "OAuth callback failed" ::
  match URL_new platform (cb_errorTarget cfg) (request_base req) with
  | inr url => [EvRespond (Redirect (URL_toString platform (with_error_param e url)))]
  | inl _ => []
  end.

(** [fragment] occurs in [page]. *)
Definition contains (page fragment : string) : Prop :=
  exists before after, page = before ++ fragment ++ after.

(** The statement with which the logout page sends the browser on. *)
Definition navigation_to (url : string) : string :=
  "window.location.replace('" ++ url ++ "')".

(** The first three writes of the logout handler and the session after
    them. *)
Definition clearing_writes (cfg : LogoutConfig) : list event :=
  [EvSessionSet (lo_accessTokenKey cfg) VNull;
   EvSessionSet (lo_refreshTokenKey cfg) VNull;
   EvSessionSet (lo_userKey cfg) VNull].

Definition cleared_session (cfg : LogoutConfig) (s : gmap string jsval)
  : gmap string jsval :=
  <[lo_userKey cfg := VNull]>
    (<[lo_refreshTokenKey cfg := VNull]> (<[lo_accessTokenKey cfg := VNull]> s)).

(** ** Concrete clients, configurations and requests for the examples *)

Definition ex_inactive : js_error :=
  BlitzWareAuthError "token_inactive" "Token is not active" None.
Definition ex_refresh_failed : js_error :=
  BlitzWareAuthError "token_refresh_failed" "Failed to refresh token" None.
Definition ex_userinfo_failed : js_error :=
  BlitzWareAuthError "userinfo_failed" "Failed to get user information" None.
Definition ex_invalid_state : js_error :=
  BlitzWareAuthError "invalid_state" "Invalid state parameter" None.

Definition ex_user : BlitzWareUser :=
  {| user_id := "u1"; user_username := "alice";
     user_email := None; user_roles := None |}.

Definition ex_tokens (new_refresh : option string) : TokenResponse :=
  {| access_token := "new-access"; token_type := "Bearer"; expires_in := 3600;
     scope := "read"; refresh_token := new_refresh |}.

(** A client whose stored access token no longer validates; the other
    outcomes are chosen per example. *)
Definition ex_client (refresh : js_error + TokenResponse)
    (info : js_error + BlitzWareUser) (callback : js_error + TokenResponse)
    (lo : js_error + unit) : BlitzWareAuth :=
  {| validateTokenAndGetUser := fun _ => inl ex_inactive;
     refreshToken := fun _ => refresh;
     getUserInfo := fun _ => info;
     handleCallback := fun _ _ _ => callback;
     logout := lo;
     getBaseUrl := "https://auth.blitzware.xyz/api/auth/";
     getConfig_clientId := "client-1" |}.

Definition ex_config (bw : BlitzWareAuth) : BlitzWareMiddlewareConfig :=
  {| blitzware := bw; accessTokenProperty := None; refreshTokenProperty := None;
     userProperty := None; autoRefresh := None; loginUrl := None;
     attachUser := None |}.

Definition ex_session : gmap string jsval :=
  <["user" := VUser ex_user]>
    (<["refreshToken" := VStr "old-refresh"]>
       (<["accessToken" := VStr "old-access"]> ∅)).

Definition ex_session_no_refresh : gmap string jsval :=
  <["accessToken" := VStr "old-access"]> ∅.

Definition ex_request (s : option (gmap string jsval)) : Request :=
  {| req_session := s; req_query := [("code", "c0"); ("state", "st0")];
     req_protocol := "http"; req_host := Some "localhost:3000" |}.

Definition ex_serialise (u : URL) : string :=
  url_location u ++
  match url_searchParams u with
  | [] => EmptyString
  | l => "?" ++ String.concat "&" (List.map (fun p => fst p ++ "=" ++ snd p) l)
  end ++
  url_hash u.

(** The platform restricted to the one failure location the examples use. *)
Definition ex_platform : Platform :=
  {| URL_new := fun input base =>
       if String.eqb input "/login?error=auth_failed"
       then inr {| url_location := base ++ "/login";
                   url_searchParams := [("error", "auth_failed")];
                   url_hash := EmptyString |}
       else inl (OtherError "TypeError: Invalid URL");
     URL_toString := ex_serialise |}.

Definition ex_callback_config (bw : BlitzWareAuth) : CallbackConfig :=
  {| cb_blitzware := bw; cb_successRedirect := None; cb_errorRedirect := None;
     cb_accessTokenProperty := None; cb_refreshTokenProperty := None;
     cb_userProperty := None; cb_stateProperty := None;
     cb_codeVerifierProperty := None |}.

Definition ex_login_session : gmap string jsval :=
  <["codeVerifier" := VStr "cv0"]> (<["oauthState" := VStr "st0"]> ∅).

Definition ex_logout_config (bw : BlitzWareAuth) (front : option bool) : LogoutConfig :=
  {| lo_blitzware := bw; lo_redirectUrl := None; lo_accessTokenProperty := None;
     lo_refreshTokenProperty := None; lo_userProperty := None;
     lo_frontChannel := front |}.


(** ** [blitzwareLogin]: the login route handler

    The two client methods it uses compute locally (random state, PKCE pair,
    URL building): they are synchronous, leave no trace of their own, and may
    throw. [getAuthorizationUrl] returns the URL and the code verifier. *)
Record LoginClient := {
  generateState : js_error + string;
  getAuthorizationUrl : string -> gmap string string -> js_error + (string * string)
}.

Record LoginConfig := {
  li_blitzware : LoginClient;
  li_scope : option string;
  li_stateProperty : option string;
  li_codeVerifierProperty : option string;
  li_additionalParams : option (gmap string string)
}.

(** A synchronous call of a client method: its outcome, nothing recorded. *)
Definition call_sync {A} (outcome : js_error + A) : M A := fun w => (outcome, w).

Section blitzwareLogin.
Variable config : LoginConfig.

Let bw := li_blitzware config.
Definition li_stateKey : string := default "oauthState" (li_stateProperty config).
Definition li_codeVerifierKey : string :=
  default "codeVerifier" (li_codeVerifierProperty config).
Definition li_extraParams : gmap string string :=
  default ∅ (li_additionalParams config).

(** [{ ...(scope ? { scope } : {}), ...additionalParams }]: the later spread
    wins on a common key. *)
Definition login_params : gmap string string :=
  li_extraParams ∪
  (if truthy (jsval_of_opt (li_scope config))
   then {[ "scope" := default EmptyString (li_scope config) ]}
   else ∅).

Definition blitzwareLogin : M unit :=
  try_catch
    (let* session := get_session in
     match session with
     | None =>
         log LError "Session not found. Make sure express-session middleware is configured." ;;
         res_status_send 500 "Session configuration error"
     | Some _ =>
         let* state := call_sync (generateState bw) in
         let* authorization := call_sync (getAuthorizationUrl bw state login_params) in
         session_write li_stateKey (VStr state) ;;
         session_write li_codeVerifierKey (VStr (snd authorization)) ;;
         res_redirect (fst authorization)
     end)%js
    (fun error =>
       log LError "Login error" ;;
       res_status_send 500 "Login failed")%js.
End blitzwareLogin.

(** ** Further descriptions used in the statements *)

(** How often [next()] was called. *)
Definition next_count (tr : list event) : nat :=
  length (List.filter (fun e => match e with EvNext => true | _ => false end) tr).

(** The session fields a run has assigned to. *)
Fixpoint written_keys (tr : list event) : list string :=
  match tr with
  | [] => []
  | EvSessionSet k _ :: tr' => k :: written_keys tr'
  | _ :: tr' => written_keys tr'
  end.

(** A later request of the same client: it carries the session object as
    the earlier run left it. *)
Definition follows (req' : Request) (w : world) : Prop :=
  req_session req' = w_session w.

Definition slash : string := String (Ascii.ascii_of_nat 47) EmptyString.

(** ** Further concrete inputs for the examples *)

Definition ex_login_client (st : js_error + string)
    (au : js_error + (string * string)) : LoginClient :=
  {| generateState := st; getAuthorizationUrl := fun _ _ => au |}.

Definition ex_login_config (bw : LoginClient) (sc : option string)
    (extra : option (gmap string string)) : LoginConfig :=
  {| li_blitzware := bw; li_scope := sc; li_stateProperty := None;
     li_codeVerifierProperty := None; li_additionalParams := extra |}.

Definition ex_authorization : string * string :=
  ("https://auth.blitzware.xyz/api/auth/authorize?state=st1", "verifier1").

Definition ex_session_only_config : SessionOnlyConfig :=
  {| so_userProperty := None; so_loginUrl := None; so_attachUser := None |}.

(** A client whose stored access token validates. *)
Definition ex_valid_client : BlitzWareAuth :=
  {| validateTokenAndGetUser := fun _ => inr ex_user;
     refreshToken := fun _ => inl ex_refresh_failed;
     getUserInfo := fun _ => inr ex_user;
     handleCallback := fun _ _ _ => inr (ex_tokens (Some "new-refresh"));
     logout := inr tt;
     getBaseUrl := "https://auth.blitzware.xyz/api/auth";
     getConfig_clientId := "client-1" |}.

(** ** The paths through the handlers

    Each constructor is one way through a handler: the conditions that select
    it and the world it ends in. The handlers are shown further down to
    follow these paths and no other. *)
Inductive auth_path (cfg : BlitzWareMiddlewareConfig) (req : Request) : world -> Prop :=
| auth_no_session :
    req_session req = None ->
    auth_path cfg req
      {| w_session := None; w_blitzwareUser := VUndefined;
         w_blitzwareAccessToken := VUndefined;
         w_trace :=
           [EvLog LError "Session not found. Make sure express-session middleware is configured.";
            EvRespond (Send 500 "Session configuration error")] |}
| auth_no_token s :
    req_session req = Some s ->
    truthy (session_get s (accessTokenKey cfg)) = false ->
    auth_path cfg req
      {| w_session := Some s; w_blitzwareUser := VUndefined;
         w_blitzwareAccessToken := VUndefined;
         w_trace := [EvRespond (Redirect (loginTarget cfg))] |}
| auth_validated s usr :
    req_session req = Some s ->
    truthy (session_get s (accessTokenKey cfg)) = true ->
    validateTokenAndGetUser (blitzware cfg) (session_get s (accessTokenKey cfg)) = inr usr ->
    auth_path cfg req
      {| w_session := Some (<[userKey cfg := VUser usr]> s);
         w_blitzwareUser := if attachUserOn cfg then VUser usr else VUndefined;
         w_blitzwareAccessToken :=
           if attachUserOn cfg then session_get s (accessTokenKey cfg) else VUndefined;
         w_trace :=
           [EvValidateTokenAndGetUser (session_get s (accessTokenKey cfg));
            EvSessionSet (userKey cfg) (VUser usr); EvNext] |}
| auth_refreshed s e tr usr :
    req_session req = Some s ->
    truthy (session_get s (accessTokenKey cfg)) = true ->
    validateTokenAndGetUser (blitzware cfg) (session_get s (accessTokenKey cfg)) = inl e ->
    autoRefreshOn cfg = true ->
    truthy (session_get s (refreshTokenKey cfg)) = true ->
    refreshToken (blitzware cfg) (session_get s (refreshTokenKey cfg)) = inr tr ->
    getUserInfo (blitzware cfg) (access_token tr) = inr usr ->
    auth_path cfg req
      {| w_session :=
           Some (<[userKey cfg := VUser usr]>
                   (with_tokens (accessTokenKey cfg) (refreshTokenKey cfg) tr s));
         w_blitzwareUser := if attachUserOn cfg then VUser usr else VUndefined;
         w_blitzwareAccessToken :=
           if attachUserOn cfg then VStr (access_token tr) else VUndefined;
         w_trace :=
           ([EvValidateTokenAndGetUser (session_get s (accessTokenKey cfg));
             EvRefreshToken (session_get s (refreshTokenKey cfg))] ++
            token_writes (accessTokenKey cfg) (refreshTokenKey cfg) tr ++
            [EvGetUserInfo (access_token tr);
             EvSessionSet (userKey cfg) (VUser usr); EvNext])%list |}
| auth_abandoned s e pre w :
    req_session req = Some s ->
    truthy (session_get s (accessTokenKey cfg)) = true ->
    validateTokenAndGetUser (blitzware cfg) (session_get s (accessTokenKey cfg)) = inl e ->
    abandoned cfg s
      (EvValidateTokenAndGetUser (session_get s (accessTokenKey cfg)) :: pre) w ->
    (pre = [EvLog LWarn "Token validation failed"] \/
     pre = [EvRefreshToken (session_get s (refreshTokenKey cfg));
            EvLog LWarn "Token refresh failed"] \/
     exists tr,
       refreshToken (blitzware cfg) (session_get s (refreshTokenKey cfg)) = inr tr /\
       pre = (EvRefreshToken (session_get s (refreshTokenKey cfg)) ::
              token_writes (accessTokenKey cfg) (refreshTokenKey cfg) tr ++
              [EvGetUserInfo (access_token tr); EvLog LWarn "Token refresh failed"])%list) ->
    auth_path cfg req w.

(** ** Reading the logout page's script

    What the script's [window.location.replace('...')] statement denotes. A
    single-quoted string literal whose text has no backslash and no line
    break is the characters up to the next quote. *)
Definition single_quote : Ascii.ascii := Ascii.ascii_of_nat 39.

Fixpoint until_quote (s : string) : string :=
  match s with
  | EmptyString => EmptyString
  | String c s' =>
      if Ascii.eqb c single_quote then EmptyString else String c (until_quote s')
  end.

(** [s] with the prefix [p] taken off, when it starts with [p]. *)
Fixpoint strip_prefix (p s : string) : option string :=
  match p with
  | EmptyString => Some s
  | String a p' =>
      match s with
      | EmptyString => None
      | String b s' => if Ascii.eqb a b then strip_prefix p' s' else None
      end
  end.

(** What follows the first occurrence of [p] in [s]. *)
Fixpoint after_first (p s : string) : option string :=
  match strip_prefix p s with
  | Some rest => Some rest
  | None =>
      match s with
      | EmptyString => None
      | String _ s' => after_first p s'
      end
  end.

Definition navigation_call : string := "window.location.replace('".

(** The argument of the first [window.location.replace('] in a line of
    script. *)
Definition navigation_target (line : string) : option string :=
  until_quote <$> after_first navigation_call line.

(** No quote, backslash or line break: the text can stand between single
    quotes as it is. *)
Definition plain_char (c : Ascii.ascii) : bool :=
  negb (Ascii.eqb c single_quote) &&
  negb (Ascii.eqb c (Ascii.ascii_of_nat 92)) &&
  negb (Ascii.eqb c (Ascii.ascii_of_nat 10)) &&
  negb (Ascii.eqb c (Ascii.ascii_of_nat 13)).

Fixpoint plain_text (s : string) : bool :=
  match s with
  | EmptyString => true
  | String c s' => plain_char c && plain_text s'
  end.

(** [Host:] with an empty value, as a client sends it for a target without
    authority. *)
Definition ex_request_empty_host (s : option (gmap string jsval)) : Request :=
  {| req_session := s; req_query := [("code", "c0"); ("state", "other")];
     req_protocol := "http"; req_host := Some EmptyString |}.

(** The platform of the examples, with the URL standard's rule that a base
    of a special scheme without a host does not parse. *)
Definition ex_platform_hosts : Platform :=
  {| URL_new := fun input base =>
       if String.eqb base "http://" || String.eqb base "https://"
       then inl (OtherError "TypeError: Invalid URL")
       else URL_new ex_platform input base;
     URL_toString := ex_serialise |}.

Definition ex_logout_config_to (bw : BlitzWareAuth) (destination : string)
  : LogoutConfig :=
  {| lo_blitzware := bw; lo_redirectUrl := Some destination;
     lo_accessTokenProperty := None; lo_refreshTokenProperty := None;
     lo_userProperty := None; lo_frontChannel := None |}.

(** ** Proof support *)

Ltac unfold_js :=
  unfold run, completes,
    blitzwareAuth, on_validation_error, refresh_and_attach, validate_and_attach,
    clear_session_fields, requireBlitzwareSession,
    blitzwareCallback, callback_exchange, callback_on_error,
    blitzwareLogout, front_channel_logout, back_channel_logout,
    try_catch, bind, ret, throw, when, await, log, res_redirect,
    res_status_send, res_setHeader, next, emit, get_session, session_read,
    session_write, set_blitzwareUser, set_blitzwareAccessToken, init_world;
  cbn [fst snd w_session w_trace w_blitzwareUser w_blitzwareAccessToken app].

Lemma session_get_insert (s : gmap string jsval) (k : string) (v : jsval) :
  session_get (<[k := v]> s) k = v.
Proof. unfold session_get. by rewrite lookup_insert_eq. Qed.

Lemma session_get_insert_ne (s : gmap string jsval) (k k' : string) (v : jsval) :
  k <> k' -> session_get (<[k := v]> s) k' = session_get s k'.
Proof. intros Hne. unfold session_get. by rewrite lookup_insert_ne. Qed.

(** After the three clearing assignments the three fields read [null],
    whatever the field names are (they may even coincide). *)
Lemma cleared_fields (s : gmap string jsval) (a r u : string) :
  let s' := <[u := VNull]> (<[r := VNull]> (<[a := VNull]> s)) in
  session_get s' a = VNull /\ session_get s' r = VNull /\ session_get s' u = VNull.
Proof.
  cbn zeta. unfold session_get. repeat split.
  - destruct (decide (u = a)) as [->|]; [by rewrite lookup_insert_eq|].
    rewrite lookup_insert_ne by done.
    destruct (decide (r = a)) as [->|]; [by rewrite lookup_insert_eq|].
    rewrite lookup_insert_ne by done. by rewrite lookup_insert_eq.
  - destruct (decide (u = r)) as [->|]; [by rewrite lookup_insert_eq|].
    rewrite lookup_insert_ne by done. by rewrite lookup_insert_eq.
  - by rewrite lookup_insert_eq.
Qed.

Lemma responses_app (t1 t2 : list event) :
  responses (t1 ++ t2) = (responses t1 ++ responses t2)%list.
Proof.
  induction t1 as [|e t1 IH]; [done|].
  destruct e; cbn; rewrite ?IH; done.
Qed.

Lemma next_called_app (t1 t2 : list event) :
  next_called (t1 ++ t2) = next_called t1 || next_called t2.
Proof. unfold next_called. apply List.existsb_app. Qed.

Lemma responses_token_writes aKey rKey tr : responses (token_writes aKey rKey tr) = [].
Proof. unfold token_writes. by destruct (truthy _). Qed.

Lemma next_called_token_writes aKey rKey tr :
  next_called (token_writes aKey rKey tr) = false.
Proof. unfold token_writes. by destruct (truthy _). Qed.

(** Clearing forgets whatever a token response had stored before. *)
Lemma clear_after_tokens (s : gmap string jsval) (a r u : string) tr :
  <[u := VNull]> (<[r := VNull]> (<[a := VNull]> (with_tokens a r tr s))) =
  <[u := VNull]> (<[r := VNull]> (<[a := VNull]> s)).
Proof.
  apply map_eq. intros k. unfold with_tokens.
  destruct (truthy _); rewrite !lookup_insert; repeat case_decide; done.
Qed.

(** ** The token-validated middleware *)

Section blitzwareAuth_facts.
Variable cfg : BlitzWareMiddlewareConfig.
Variable req : Request.
Variable s : gmap string jsval.
Hypothesis Hsession : req_session req = Some s.

Local Abbreviation aKey := (accessTokenKey cfg).
Local Abbreviation rKey := (refreshTokenKey cfg).
Local Abbreviation uKey := (userKey cfg).
Local Abbreviation at0 := (session_get s (accessTokenKey cfg)).
Local Abbreviation rt0 := (session_get s (refreshTokenKey cfg)).

Lemma run_no_refresh e :
  truthy at0 = true ->
  validateTokenAndGetUser (blitzware cfg) at0 = inl e ->
  autoRefreshOn cfg = false \/ truthy rt0 = false ->
  abandoned cfg s [EvValidateTokenAndGetUser at0; EvLog LWarn "Token validation failed"]
            (run (blitzwareAuth cfg) req).
Proof.
  intros Hat Hval Hno. unfold abandoned. unfold_js.
  rewrite Hsession. cbn. rewrite Hat. cbn. rewrite Hval. cbn.
  destruct (autoRefreshOn cfg) eqn:Hauto; cbn.
  - destruct Hno as [?|Hrt]; [discriminate|]. rewrite Hrt. cbn. done.
  - done.
Qed.

Lemma run_refresh_rejected e e' :
  truthy at0 = true ->
  validateTokenAndGetUser (blitzware cfg) at0 = inl e ->
  autoRefreshOn cfg = true ->
  truthy rt0 = true ->
  refreshToken (blitzware cfg) rt0 = inl e' ->
  abandoned cfg s [EvValidateTokenAndGetUser at0; EvRefreshToken rt0;
             EvLog LWarn "Token refresh failed"]
            (run (blitzwareAuth cfg) req).
Proof.
  intros Hat Hval Hauto Hrt Href. unfold abandoned. unfold_js.
  rewrite Hsession. cbn. rewrite Hat. cbn. rewrite Hval. cbn.
  rewrite Hauto. cbn. rewrite Hrt. cbn. rewrite Href. cbn. done.
Qed.

Lemma run_userinfo_rejected e tr e' :
  truthy at0 = true ->
  validateTokenAndGetUser (blitzware cfg) at0 = inl e ->
  autoRefreshOn cfg = true ->
  truthy rt0 = true ->
  refreshToken (blitzware cfg) rt0 = inr tr ->
  getUserInfo (blitzware cfg) (access_token tr) = inl e' ->
  abandoned cfg s ([EvValidateTokenAndGetUser at0; EvRefreshToken rt0] ++
             token_writes aKey rKey tr ++
             [EvGetUserInfo (access_token tr); EvLog LWarn "Token refresh failed"])
            (run (blitzwareAuth cfg) req).
Proof.
  intros Hat Hval Hauto Hrt Href Hinfo. unfold abandoned.
  rewrite <- (clear_after_tokens s aKey rKey uKey tr).
  unfold with_tokens, token_writes. unfold_js.
  rewrite Hsession. cbn. rewrite Hat. cbn. rewrite Hval. cbn.
  rewrite Hauto. cbn. rewrite Hrt. cbn. rewrite Href. cbn.
  destruct (truthy (jsval_of_opt (refresh_token tr))); cbn;
    rewrite Hinfo; cbn; done.
Qed.

(** The world a successful refresh leaves. *)
Lemma run_refreshed e tr usr :
  truthy at0 = true ->
  validateTokenAndGetUser (blitzware cfg) at0 = inl e ->
  autoRefreshOn cfg = true ->
  truthy rt0 = true ->
  refreshToken (blitzware cfg) rt0 = inr tr ->
  getUserInfo (blitzware cfg) (access_token tr) = inr usr ->
  let w := run (blitzwareAuth cfg) req in
  completes (blitzwareAuth cfg) req /\
  w_session w = Some (<[uKey := VUser usr]> (with_tokens aKey rKey tr s)) /\
  w_trace w =
    ([EvValidateTokenAndGetUser at0; EvRefreshToken rt0] ++
     token_writes aKey rKey tr ++
     [EvGetUserInfo (access_token tr); EvSessionSet uKey (VUser usr); EvNext])%list /\
  w_blitzwareUser w = (if attachUserOn cfg then VUser usr else VUndefined) /\
  w_blitzwareAccessToken w =
    (if attachUserOn cfg then VStr (access_token tr) else VUndefined).
Proof.
  intros Hat Hval Hauto Hrt Href Hinfo. cbn zeta.
  unfold with_tokens, token_writes. unfold_js.
  rewrite Hsession. cbn. rewrite Hat. cbn. rewrite Hval. cbn.
  rewrite Hauto. cbn. rewrite Hrt. cbn. rewrite Href. cbn.
  destruct (truthy (jsval_of_opt (refresh_token tr))); cbn;
    rewrite Hinfo; cbn; destruct (attachUserOn cfg); cbn; done.
Qed.
End blitzwareAuth_facts.

Lemma abandoned_outcome cfg s pre w :
  abandoned cfg s pre w ->
  responses pre = [] ->
  exists s',
    w_session w = Some s' /\
    session_get s' (accessTokenKey cfg) = VNull /\
    session_get s' (refreshTokenKey cfg) = VNull /\
    session_get s' (userKey cfg) = VNull /\
    responses (w_trace w) = [Redirect (loginTarget cfg)] /\
    (exists before,
       w_trace w =
         (before ++ [EvSessionSet (accessTokenKey cfg) VNull;
                     EvSessionSet (refreshTokenKey cfg) VNull;
                     EvSessionSet (userKey cfg) VNull;
                     EvRespond (Redirect (loginTarget cfg))])%list) /\
    w_blitzwareUser w = VUndefined /\
    w_blitzwareAccessToken w = VUndefined.
Proof.
  intros (Hs & Htr & Hu & Ht) Hpre.
  destruct (cleared_fields s (accessTokenKey cfg) (refreshTokenKey cfg) (userKey cfg))
    as (Ha & Hr & Hus).
  eexists. split; [exact Hs|].
  repeat split; try assumption.
  - rewrite Htr, responses_app, Hpre. done.
  - eexists. exact Htr.
Qed.

(** C4. A session that exists but holds no (truthy) access token under the
    configured key: the only thing [blitzwareAuth] does is redirect to the
    configured login URL; it calls no method of the client and writes nothing
    into the session. *)
Theorem blitzwareAuth_without_access_token cfg req (s : gmap string jsval) :
  req_session req = Some s ->
  truthy (session_get s (accessTokenKey cfg)) = false ->
  let w := run (blitzwareAuth cfg) req in
  w_trace w = [EvRespond (Redirect (loginTarget cfg))] /\
  responses (w_trace w) = [Redirect (loginTarget cfg)] /\
  network_calls (w_trace w) = [] /\
  session_writes (w_trace w) = [] /\
  w_session w = Some s.
Proof.
  intros Hs Hat. cbn zeta.
  assert (Hrun : run (blitzwareAuth cfg) req =
                 {| w_session := Some s; w_blitzwareUser := VUndefined;
                    w_blitzwareAccessToken := VUndefined;
                    w_trace := [EvRespond (Redirect (loginTarget cfg))] |}).
  { unfold_js. rewrite Hs. cbn. rewrite Hat. cbn. done. }
  rewrite Hrun. done.
Qed.

Lemma blitzwareAuth_without_access_token_witness :
  req_session (ex_request (Some ∅)) = Some ∅ /\
  truthy (session_get ∅ (accessTokenKey (ex_config (ex_client (inl ex_refresh_failed)
            (inl ex_userinfo_failed) (inl ex_invalid_state) (inr tt))))) = false /\
  responses (w_trace (run (blitzwareAuth (ex_config (ex_client (inl ex_refresh_failed)
     (inl ex_userinfo_failed) (inl ex_invalid_state) (inr tt)))) (ex_request (Some ∅))))
  = [Redirect "/login"].
Proof.
  split; [reflexivity|]. split; [reflexivity|].
  apply (blitzwareAuth_without_access_token
           (ex_config (ex_client (inl ex_refresh_failed) (inl ex_userinfo_failed)
                                 (inl ex_invalid_state) (inr tt)))
           (ex_request (Some ∅)) ∅); reflexivity.
Defined.

(** C6. With no session object on the request at all, both
    [blitzwareAuth] and [requireBlitzwareSession] answer with status 500 and
    the body [Session configuration error]; neither redirects, neither calls
    the client. *)
Theorem absent_session_is_configuration_error cfg socfg req :
  req_session req = None ->
  let w := run (blitzwareAuth cfg) req in
  let w' := run (requireBlitzwareSession socfg) req in
  responses (w_trace w) = [Send 500 "Session configuration error"] /\
  network_calls (w_trace w) = [] /\
  responses (w_trace w') = [Send 500 "Session configuration error"] /\
  network_calls (w_trace w') = [].
Proof.
  intros Hs. cbn zeta. unfold_js. rewrite Hs. cbn. done.
Qed.

Lemma absent_session_is_configuration_error_witness :
  req_session (ex_request None) = None /\
  responses (w_trace (run (blitzwareAuth (ex_config (ex_client (inl ex_refresh_failed)
     (inl ex_userinfo_failed) (inl ex_invalid_state) (inr tt)))) (ex_request None)))
  = [Send 500 "Session configuration error"].
Proof.
  split; [reflexivity|].
  apply (absent_session_is_configuration_error
           (ex_config (ex_client (inl ex_refresh_failed) (inl ex_userinfo_failed)
                                 (inl ex_invalid_state) (inr tt)))
           {| so_userProperty := None; so_loginUrl := None; so_attachUser := None |}
           (ex_request None)); reflexivity.
Defined.

(** C3. When validation of the access token fails and the middleware gives
    up (auto-refresh is off, or the session holds no refresh token, or the
    refresh call itself is rejected), [blitzwareAuth] sets the session's
    access-token, refresh-token and user fields to [null] and then redirects
    to the configured login URL; nothing is attached to the request and
    [next] is not called. *)
Theorem blitzwareAuth_abandon_clears_then_redirects cfg req (s : gmap string jsval) e :
  req_session req = Some s ->
  truthy (session_get s (accessTokenKey cfg)) = true ->
  validateTokenAndGetUser (blitzware cfg) (session_get s (accessTokenKey cfg)) = inl e ->
  (autoRefreshOn cfg = false \/
   truthy (session_get s (refreshTokenKey cfg)) = false \/
   exists e', refreshToken (blitzware cfg) (session_get s (refreshTokenKey cfg)) = inl e') ->
  let w := run (blitzwareAuth cfg) req in
  exists s',
    w_session w = Some s' /\
    session_get s' (accessTokenKey cfg) = VNull /\
    session_get s' (refreshTokenKey cfg) = VNull /\
    session_get s' (userKey cfg) = VNull /\
    responses (w_trace w) = [Redirect (loginTarget cfg)] /\
    (exists before,
       w_trace w =
         (before ++ [EvSessionSet (accessTokenKey cfg) VNull;
                     EvSessionSet (refreshTokenKey cfg) VNull;
                     EvSessionSet (userKey cfg) VNull;
                     EvRespond (Redirect (loginTarget cfg))])%list) /\
    w_blitzwareUser w = VUndefined /\
    w_blitzwareAccessToken w = VUndefined.
Proof.
  intros Hs Hat Hval Hgiveup. cbn zeta.
  destruct (autoRefreshOn cfg) eqn:Hauto;
    [destruct (truthy (session_get s (refreshTokenKey cfg))) eqn:Hrt|].
  - destruct Hgiveup as [?|[?|[e' Href]]]; [discriminate..|].
    eapply abandoned_outcome; [eapply run_refresh_rejected; eassumption|done].
  - eapply abandoned_outcome; [eapply run_no_refresh; eauto|done].
  - eapply abandoned_outcome; [eapply run_no_refresh; eauto|done].
Qed.

Lemma blitzwareAuth_abandon_clears_then_redirects_witness :
  let cfg := ex_config (ex_client (inl ex_refresh_failed) (inl ex_userinfo_failed)
                                  (inl ex_invalid_state) (inr tt)) in
  let req := ex_request (Some ex_session_no_refresh) in
  req_session req = Some ex_session_no_refresh /\
  truthy (session_get ex_session_no_refresh (accessTokenKey cfg)) = true /\
  truthy (session_get ex_session_no_refresh (refreshTokenKey cfg)) = false /\
  responses (w_trace (run (blitzwareAuth cfg) req)) = [Redirect "/login"].
Proof.
  cbn zeta. split; [reflexivity|]. split; [reflexivity|]. split; [reflexivity|].
  destruct (blitzwareAuth_abandon_clears_then_redirects
              (ex_config (ex_client (inl ex_refresh_failed) (inl ex_userinfo_failed)
                                    (inl ex_invalid_state) (inr tt)))
              (ex_request (Some ex_session_no_refresh))
              ex_session_no_refresh ex_inactive
              eq_refl eq_refl eq_refl (or_intror (or_introl eq_refl)))
    as (s' & _ & _ & _ & _ & Hresp & _).
  exact Hresp.
Defined.

(** C1, as the claim states it, fails: the session holds an expired access
    token and a refresh token, the refresh succeeds, the user-info call with
    the new token is rejected. The middleware does not answer with a server
    error and does not keep the session: it redirects to [/login] and the
    three fields read [null]. *)
Lemma blitzwareAuth_userinfo_failure_counterexample :
  let cfg := ex_config (ex_client (inr (ex_tokens None)) (inl ex_userinfo_failed)
                                  (inl ex_invalid_state) (inr tt)) in
  let req := ex_request (Some ex_session) in
  let w := run (blitzwareAuth cfg) req in
  (req_session req = Some ex_session /\
   truthy (session_get ex_session (accessTokenKey cfg)) = true /\
   validateTokenAndGetUser (blitzware cfg) (session_get ex_session (accessTokenKey cfg))
     = inl ex_inactive /\
   autoRefreshOn cfg = true /\
   truthy (session_get ex_session (refreshTokenKey cfg)) = true /\
   refreshToken (blitzware cfg) (session_get ex_session (refreshTokenKey cfg))
     = inr (ex_tokens None) /\
   getUserInfo (blitzware cfg) (access_token (ex_tokens None)) = inl ex_userinfo_failed) /\
  ~ ((exists status body, responses (w_trace w) = [Send status body]) /\
     (exists s',
        w_session w = Some s' /\
        session_get s' (accessTokenKey cfg) = session_get ex_session (accessTokenKey cfg) /\
        session_get s' (refreshTokenKey cfg) = session_get ex_session (refreshTokenKey cfg) /\
        session_get s' (userKey cfg) = session_get ex_session (userKey cfg))) /\
  responses (w_trace w) = [Redirect "/login"] /\
  (exists s',
     w_session w = Some s' /\
     session_get s' "accessToken" = VNull /\
     session_get s' "refreshToken" = VNull /\
     session_get s' "user" = VNull).
Proof.
  cbn zeta. split; [repeat split|]. split.
  - intros [(status & body & Hresp) _]. vm_compute in Hresp. discriminate.
  - split; [reflexivity|]. eexists. split; [reflexivity|]. by vm_compute.
Qed.

(** C1, amended. When validation fails, auto-refresh is on, a refresh token
    is present, the refresh succeeds and the user-info call with the new
    access token is rejected, [blitzwareAuth] sets the session's
    access-token, refresh-token and user fields to [null] and redirects to
    the configured login URL; it sends no error response. *)
Theorem blitzwareAuth_userinfo_failure_after_refresh
    cfg req (s : gmap string jsval) e tr e' :
  req_session req = Some s ->
  truthy (session_get s (accessTokenKey cfg)) = true ->
  validateTokenAndGetUser (blitzware cfg) (session_get s (accessTokenKey cfg)) = inl e ->
  autoRefreshOn cfg = true ->
  truthy (session_get s (refreshTokenKey cfg)) = true ->
  refreshToken (blitzware cfg) (session_get s (refreshTokenKey cfg)) = inr tr ->
  getUserInfo (blitzware cfg) (access_token tr) = inl e' ->
  let w := run (blitzwareAuth cfg) req in
  exists s',
    w_session w = Some s' /\
    session_get s' (accessTokenKey cfg) = VNull /\
    session_get s' (refreshTokenKey cfg) = VNull /\
    session_get s' (userKey cfg) = VNull /\
    responses (w_trace w) = [Redirect (loginTarget cfg)] /\
    (exists before,
       w_trace w =
         (before ++ [EvSessionSet (accessTokenKey cfg) VNull;
                     EvSessionSet (refreshTokenKey cfg) VNull;
                     EvSessionSet (userKey cfg) VNull;
                     EvRespond (Redirect (loginTarget cfg))])%list) /\
    w_blitzwareUser w = VUndefined /\
    w_blitzwareAccessToken w = VUndefined.
Proof.
  intros Hs Hat Hval Hauto Hrt Href Hinfo. cbn zeta.
  eapply abandoned_outcome; [eapply run_userinfo_rejected; eassumption|].
  rewrite !responses_app, responses_token_writes. done.
Qed.

Lemma blitzwareAuth_userinfo_failure_after_refresh_witness :
  let cfg := ex_config (ex_client (inr (ex_tokens None)) (inl ex_userinfo_failed)
                                  (inl ex_invalid_state) (inr tt)) in
  let req := ex_request (Some ex_session) in
  req_session req = Some ex_session /\
  truthy (session_get ex_session (accessTokenKey cfg)) = true /\
  autoRefreshOn cfg = true /\
  truthy (session_get ex_session (refreshTokenKey cfg)) = true /\
  responses (w_trace (run (blitzwareAuth cfg) req)) = [Redirect (loginTarget cfg)].
Proof.
  cbn zeta. do 4 (split; [reflexivity|]).
  destruct (blitzwareAuth_userinfo_failure_after_refresh
              (ex_config (ex_client (inr (ex_tokens None)) (inl ex_userinfo_failed)
                                    (inl ex_invalid_state) (inr tt)))
              (ex_request (Some ex_session)) ex_session
              ex_inactive (ex_tokens None) ex_userinfo_failed
              eq_refl eq_refl eq_refl eq_refl eq_refl eq_refl eq_refl)
    as (s' & _ & _ & _ & _ & Hresp & _).
  exact Hresp.
Defined.



Lemma token_writes_absent aKey rKey tr :
  refresh_token tr = None ->
  token_writes aKey rKey tr = [EvSessionSet aKey (VStr (access_token tr))].
Proof. unfold token_writes. by intros ->. Qed.

Lemma token_writes_present aKey rKey tr r :
  refresh_token tr = Some r -> r <> EmptyString ->
  token_writes aKey rKey tr =
    [EvSessionSet aKey (VStr (access_token tr)); EvSessionSet rKey (VStr r)].
Proof.
  unfold token_writes. intros -> Hr. cbn.
  destruct (String.eqb_spec r EmptyString); [contradiction|done].
Qed.

Lemma token_writes_empty aKey rKey tr :
  refresh_token tr = Some EmptyString ->
  token_writes aKey rKey tr = [EvSessionSet aKey (VStr (access_token tr))].
Proof. unfold token_writes. by intros ->. Qed.

Lemma with_tokens_frame aKey rKey tr (s : gmap string jsval) k :
  refresh_token tr = None -> k <> aKey ->
  session_get (with_tokens aKey rKey tr s) k = session_get s k.
Proof.
  unfold with_tokens. intros -> Hk. cbn. apply session_get_insert_ne. congruence.
Qed.

Lemma with_tokens_refresh aKey rKey tr (s : gmap string jsval) r :
  refresh_token tr = Some r -> r <> EmptyString ->
  session_get (with_tokens aKey rKey tr s) rKey = VStr r.
Proof.
  unfold with_tokens. intros -> Hr. cbn.
  destruct (String.eqb_spec r EmptyString); [contradiction|]. cbn. apply session_get_insert.
Qed.

(** C9. On the refresh path of [blitzwareAuth], between the refresh call and
    the user-info call the session is written as follows: a response without
    [refresh_token] (or with an empty one, which [if] treats alike) causes
    the single write of the new access token, so the
    stored refresh token (like every field other than the access token) is
    as it was; a response with a (non-empty) [refresh_token] causes a second
    write that replaces the stored refresh token. When the user-info call
    then succeeds, the final session reads accordingly. *)
Theorem blitzwareAuth_refresh_token_frame cfg req (s : gmap string jsval) e tr :
  req_session req = Some s ->
  truthy (session_get s (accessTokenKey cfg)) = true ->
  validateTokenAndGetUser (blitzware cfg) (session_get s (accessTokenKey cfg)) = inl e ->
  autoRefreshOn cfg = true ->
  truthy (session_get s (refreshTokenKey cfg)) = true ->
  refreshToken (blitzware cfg) (session_get s (refreshTokenKey cfg)) = inr tr ->
  let w := run (blitzwareAuth cfg) req in
  let aKey := accessTokenKey cfg in
  let rKey := refreshTokenKey cfg in
  let uKey := userKey cfg in
  (exists writes rest,
     w_trace w =
       ([EvValidateTokenAndGetUser (session_get s aKey);
         EvRefreshToken (session_get s rKey)] ++
        writes ++ EvGetUserInfo (access_token tr) :: rest)%list /\
     (refresh_token tr = None \/ refresh_token tr = Some EmptyString ->
      writes = [EvSessionSet aKey (VStr (access_token tr))]) /\
     (forall r, refresh_token tr = Some r -> r <> EmptyString ->
      writes = [EvSessionSet aKey (VStr (access_token tr));
                EvSessionSet rKey (VStr r)])) /\
  (forall usr,
     getUserInfo (blitzware cfg) (access_token tr) = inr usr ->
     exists s',
       w_session w = Some s' /\
       (refresh_token tr = None -> rKey <> aKey -> rKey <> uKey ->
        session_get s' rKey = session_get s rKey) /\
       (refresh_token tr = None ->
        forall k, k <> aKey -> k <> uKey -> session_get s' k = session_get s k) /\
       (forall r, refresh_token tr = Some r -> r <> EmptyString -> rKey <> uKey ->
        session_get s' rKey = VStr r)).
Proof.
  intros Hs Hat Hval Hauto Hrt Href. cbn zeta. split.
  - exists (token_writes (accessTokenKey cfg) (refreshTokenKey cfg) tr).
    destruct (getUserInfo (blitzware cfg) (access_token tr)) as [e'|usr] eqn:Hinfo.
    + destruct (run_userinfo_rejected cfg req s Hs e tr e' Hat Hval Hauto Hrt Href Hinfo)
        as (_ & Htr & _).
      eexists. split; [|split].
      * rewrite Htr. rewrite <- !app_assoc. cbn [app]. reflexivity.
      * intros [Hno|Hempty]; [by apply token_writes_absent|by apply token_writes_empty].
      * intros r. apply token_writes_present.
    + destruct (run_refreshed cfg req s Hs e tr usr Hat Hval Hauto Hrt Href Hinfo)
        as (_ & _ & Htr & _).
      eexists. split; [|split].
      * rewrite Htr. cbn [app]. reflexivity.
      * intros [Hno|Hempty]; [by apply token_writes_absent|by apply token_writes_empty].
      * intros r. apply token_writes_present.
  - intros usr Hinfo.
    destruct (run_refreshed cfg req s Hs e tr usr Hat Hval Hauto Hrt Href Hinfo)
      as (_ & Hsess & _).
    eexists. split; [exact Hsess|]. split; [|split].
    + intros Hnone Hra Hru. rewrite session_get_insert_ne by congruence.
      by apply with_tokens_frame.
    + intros Hnone k Hka Hku. rewrite session_get_insert_ne by congruence.
      by apply with_tokens_frame.
    + intros r Hsome Hr Hru. rewrite session_get_insert_ne by congruence.
      by apply with_tokens_refresh.
Qed.

Lemma blitzwareAuth_refresh_token_frame_witness :
  let cfg := ex_config (ex_client (inr (ex_tokens None)) (inr ex_user)
                                  (inl ex_invalid_state) (inr tt)) in
  let req := ex_request (Some ex_session) in
  req_session req = Some ex_session /\
  truthy (session_get ex_session (accessTokenKey cfg)) = true /\
  autoRefreshOn cfg = true /\
  truthy (session_get ex_session (refreshTokenKey cfg)) = true /\
  exists s',
    w_session (run (blitzwareAuth cfg) req) = Some s' /\
    session_get s' "refreshToken" = VStr "old-refresh".
Proof.
  cbn zeta. do 4 (split; [reflexivity|]).
  destruct (blitzwareAuth_refresh_token_frame
              (ex_config (ex_client (inr (ex_tokens None)) (inr ex_user)
                                    (inl ex_invalid_state) (inr tt)))
              (ex_request (Some ex_session)) ex_session
              ex_inactive (ex_tokens None)
              eq_refl eq_refl eq_refl eq_refl eq_refl eq_refl)
    as (_ & Hfinal).
  destruct (Hfinal ex_user eq_refl) as (s' & Hsess & Hkeep & _).
  exists s'. split; [exact Hsess|].
  exact (Hkeep eq_refl ltac:(cbv; discriminate) ltac:(cbv; discriminate)).
Defined.

(** ** The callback handler *)

Arguments has_name : simpl never.

Lemma has_name_same name value : has_name name (name, value) = true.
Proof. unfold has_name. cbn. apply String.eqb_refl. Qed.

Lemma has_name_other name name' value :
  name <> name' -> has_name name (name', value) = false.
Proof.
  intros Hne. unfold has_name. cbn.
  destruct (String.eqb_spec name' name); [congruence|done].
Qed.

Lemma has_name_eq name p : has_name name p = true -> fst p = name.
Proof. unfold has_name. apply String.eqb_eq. Qed.

Lemma params_get_set_same name value l :
  params_get name (params_set name value l) = Some value.
Proof.
  unfold params_get. induction l as [|p l IH]; simpl.
  - by rewrite has_name_same.
  - destruct (has_name name p) eqn:Hp; simpl.
    + by rewrite has_name_same.
    + by rewrite Hp.
Qed.

Lemma find_filter_other name name' (l : list (string * string)) :
  name <> name' ->
  List.find (has_name name) (List.filter (fun q => negb (has_name name' q)) l) =
  List.find (has_name name) l.
Proof.
  intros Hne. induction l as [|p l IH]; [done|]. simpl.
  destruct (has_name name' p) eqn:Hp'; simpl.
  - destruct (has_name name p) eqn:Hp; [|exact IH].
    apply has_name_eq in Hp. apply has_name_eq in Hp'. congruence.
  - destruct (has_name name p); [done|exact IH].
Qed.

Lemma params_get_set_other name name' value l :
  name <> name' ->
  params_get name (params_set name' value l) = params_get name l.
Proof.
  intros Hne. unfold params_get. f_equal.
  induction l as [|p l IH]; simpl.
  - by rewrite has_name_other.
  - destruct (has_name name' p) eqn:Hp'; simpl.
    + rewrite has_name_other by done.
      assert (Hp : has_name name p = false).
      { destruct (has_name name p) eqn:Hp; [|done].
        apply has_name_eq in Hp. apply has_name_eq in Hp'. congruence. }
      rewrite Hp. by apply find_filter_other.
    + destruct (has_name name p); [done|exact IH].
Qed.

Section blitzwareCallback_facts.
Variable platform : Platform.
Variable cfg : CallbackConfig.
Variable req : Request.
Variable s : gmap string jsval.
Hypothesis Hsession : req_session req = Some s.

Local Abbreviation es := (session_get s (cb_stateKey cfg)).
Local Abbreviation cv := (session_get s (cb_codeVerifierKey cfg)).
Local Abbreviation outcome :=
  (handleCallback (cb_blitzware cfg) (req_query req)
     (session_get s (cb_stateKey cfg)) (session_get s (cb_codeVerifierKey cfg))).

Lemma run_callback_rejected e :
  outcome = inl e ->
  let w := run (blitzwareCallback platform cfg req) req in
  w_session w = Some s /\
  w_trace w = EvHandleCallback (req_query req) es cv :: failure_tail platform cfg req e.
Proof.
  intros Hout. cbn zeta. unfold failure_tail. unfold_js.
  rewrite Hsession. cbn. rewrite Hout. cbn.
  destruct (URL_new platform _ _); cbn; done.
Qed.

Lemma run_callback_userinfo_rejected tr e :
  outcome = inr tr ->
  getUserInfo (cb_blitzware cfg) (access_token tr) = inl e ->
  let w := run (blitzwareCallback platform cfg req) req in
  w_session w = Some (with_tokens (cb_accessTokenKey cfg) (cb_refreshTokenKey cfg) tr s) /\
  w_trace w =
    (EvHandleCallback (req_query req) es cv ::
     token_writes (cb_accessTokenKey cfg) (cb_refreshTokenKey cfg) tr ++
     EvGetUserInfo (access_token tr) :: failure_tail platform cfg req e)%list.
Proof.
  intros Hout Hinfo. cbn zeta. unfold failure_tail, with_tokens, token_writes.
  unfold_js. rewrite Hsession. cbn. rewrite Hout. cbn.
  destruct (truthy (jsval_of_opt (refresh_token tr))); cbn; rewrite Hinfo; cbn;
    destruct (URL_new platform _ _); cbn; done.
Qed.

Lemma run_callback_success tr usr :
  outcome = inr tr ->
  getUserInfo (cb_blitzware cfg) (access_token tr) = inr usr ->
  let w := run (blitzwareCallback platform cfg req) req in
  completes (blitzwareCallback platform cfg req) req /\
  w_session w =
    Some (<[cb_codeVerifierKey cfg := VNull]>
            (<[cb_stateKey cfg := VNull]>
               (<[cb_userKey cfg := VUser usr]>
                  (with_tokens (cb_accessTokenKey cfg) (cb_refreshTokenKey cfg) tr s)))) /\
  w_trace w =
    (EvHandleCallback (req_query req) es cv ::
     token_writes (cb_accessTokenKey cfg) (cb_refreshTokenKey cfg) tr ++
     [EvGetUserInfo (access_token tr);
      EvSessionSet (cb_userKey cfg) (VUser usr);
      EvSessionSet (cb_stateKey cfg) VNull;
      EvSessionSet (cb_codeVerifierKey cfg) VNull;
      EvRespond (Redirect (cb_successTarget cfg))])%list.
Proof.
  intros Hout Hinfo. cbn zeta. unfold with_tokens, token_writes.
  unfold_js. rewrite Hsession. cbn. rewrite Hout. cbn.
  destruct (truthy (jsval_of_opt (refresh_token tr))); cbn; rewrite Hinfo; cbn; done.
Qed.

(** The response to a failed callback, whichever call rejected. *)
Lemma callback_failure_response e url :
  callback_fails_with cfg req s e ->
  URL_new platform (cb_errorTarget cfg) (request_base req) = inr url ->
  let w := run (blitzwareCallback platform cfg req) req in
  completes (blitzwareCallback platform cfg req) req /\
  responses (w_trace w) =
    [Redirect (URL_toString platform (with_error_param e url))].
Proof.
  intros [Hout|(tr & Hout & Hinfo)] Hurl; cbn zeta.
  - split.
    + unfold_js. rewrite Hsession. cbn. rewrite Hout. cbn. rewrite Hurl. done.
    + destruct (run_callback_rejected e Hout) as (_ & ->).
      unfold failure_tail. rewrite Hurl. done.
  - split.
    + unfold_js. rewrite Hsession. cbn. rewrite Hout. cbn.
      destruct (truthy (jsval_of_opt (refresh_token tr))); cbn; rewrite Hinfo; cbn;
        rewrite Hurl; done.
    + destruct (run_callback_userinfo_rejected tr e Hout Hinfo) as (_ & ->).
      unfold failure_tail. rewrite Hurl.
      change (?x :: ?l ++ ?y :: ?t)%list with ([x] ++ l ++ y :: t)%list.
      rewrite !responses_app, responses_token_writes. done.
Qed.
End blitzwareCallback_facts.

(** C2, as the claim states it, fails: a callback whose state does not match
    is rejected by [handleCallback] with [invalid_state]; the handler
    completes with its failure redirect, and the session still holds the
    state and the verifier of the login attempt. *)
Lemma blitzwareCallback_failure_keeps_state_counterexample :
  let cfg := ex_callback_config
               (ex_client (inl ex_refresh_failed) (inl ex_userinfo_failed)
                          (inl ex_invalid_state) (inr tt)) in
  let req := ex_request (Some ex_login_session) in
  let w := run (blitzwareCallback ex_platform cfg req) req in
  req_session req = Some ex_login_session /\
  completes (blitzwareCallback ex_platform cfg req) req /\
  callback_fails_with cfg req ex_login_session ex_invalid_state /\
  ~ (exists s',
       w_session w = Some s' /\
       truthy (session_get s' (cb_stateKey cfg)) = false /\
       truthy (session_get s' (cb_codeVerifierKey cfg)) = false) /\
  (exists s',
     w_session w = Some s' /\
     session_get s' "oauthState" = VStr "st0" /\
     session_get s' "codeVerifier" = VStr "cv0").
Proof.
  cbn zeta. split; [reflexivity|]. split; [reflexivity|].
  split; [left; reflexivity|]. split.
  - intros (s' & Hs' & Hst & _). vm_compute in Hs'.
    injection Hs' as <-. vm_compute in Hst. discriminate.
  - eexists. split; [reflexivity|]. by vm_compute.
Qed.

(** C2, amended. With a session present: when the callback succeeds, the
    session's state and code-verifier fields read [null] once the handler
    has completed (and the response is the success redirect); when it fails
    (the code exchange or the user-info call is rejected), the handler does
    not clear them: every session field other than the access-token and
    refresh-token fields keeps the value it had. *)
Theorem blitzwareCallback_state_cleared_on_success_only
    platform cfg req (s : gmap string jsval) :
  req_session req = Some s ->
  let w := run (blitzwareCallback platform cfg req) req in
  let outcome :=
    handleCallback (cb_blitzware cfg) (req_query req)
      (session_get s (cb_stateKey cfg)) (session_get s (cb_codeVerifierKey cfg)) in
  (forall tr usr,
     outcome = inr tr ->
     getUserInfo (cb_blitzware cfg) (access_token tr) = inr usr ->
     completes (blitzwareCallback platform cfg req) req /\
     responses (w_trace w) = [Redirect (cb_successTarget cfg)] /\
     exists s',
       w_session w = Some s' /\
       session_get s' (cb_stateKey cfg) = VNull /\
       session_get s' (cb_codeVerifierKey cfg) = VNull) /\
  (forall e,
     callback_fails_with cfg req s e ->
     exists s',
       w_session w = Some s' /\
       (forall k, k <> cb_accessTokenKey cfg -> k <> cb_refreshTokenKey cfg ->
                  s' !! k = s !! k) /\
       ~ In (EvSessionSet (cb_stateKey cfg) VNull) (w_trace w) /\
       ~ In (EvSessionSet (cb_codeVerifierKey cfg) VNull) (w_trace w)).
Proof.
  intros Hs. cbn zeta. split.
  - intros tr usr Hout Hinfo.
    destruct (run_callback_success platform cfg req s Hs tr usr Hout Hinfo)
      as (Hdone & Hsess & Htr).
    split; [exact Hdone|]. split.
    + rewrite Htr.
      change (?x :: ?l ++ ?t)%list with ([x] ++ l ++ t)%list.
      rewrite !responses_app, responses_token_writes. done.
    + eexists. split; [exact Hsess|]. split; [|apply session_get_insert].
      destruct (decide (cb_codeVerifierKey cfg = cb_stateKey cfg)) as [->|Hne].
      * apply session_get_insert.
      * rewrite session_get_insert_ne by done. apply session_get_insert.
  - intros e [Hout|(tr & Hout & Hinfo)].
    + destruct (run_callback_rejected platform cfg req s Hs e Hout) as (Hsess & Htr).
      exists s. split; [exact Hsess|]. split; [done|].
      rewrite Htr. unfold failure_tail.
      destruct (URL_new platform _ _); cbn; intuition discriminate.
    + destruct (run_callback_userinfo_rejected platform cfg req s Hs tr e Hout Hinfo)
        as (Hsess & Htr).
      eexists. split; [exact Hsess|]. split.
      * intros k Hka Hkr. unfold with_tokens.
        destruct (truthy (jsval_of_opt (refresh_token tr)));
          rewrite ?lookup_insert_ne by congruence; done.
      * rewrite Htr. unfold failure_tail, token_writes.
        destruct (URL_new platform _ _);
          destruct (truthy (jsval_of_opt (refresh_token tr))) eqn:Hrt;
          cbn; split; intros H; decompose [or] H; try discriminate; try done;
          match goal with
          | Heq : EvSessionSet _ _ = EvSessionSet _ VNull |- _ =>
              injection Heq as _ Hv; rewrite Hv in Hrt; discriminate
          end.
Qed.

Lemma blitzwareCallback_state_cleared_on_success_only_witness :
  let cfg := ex_callback_config
               (ex_client (inl ex_refresh_failed) (inr ex_user)
                          (inr (ex_tokens (Some "new-refresh"))) (inr tt)) in
  let req := ex_request (Some ex_login_session) in
  req_session req = Some ex_login_session /\
  responses (w_trace (run (blitzwareCallback ex_platform cfg req) req)) = [Redirect "/"].
Proof.
  cbn zeta. split; [reflexivity|].
  destruct (blitzwareCallback_state_cleared_on_success_only ex_platform
              (ex_callback_config
                 (ex_client (inl ex_refresh_failed) (inr ex_user)
                            (inr (ex_tokens (Some "new-refresh"))) (inr tt)))
              (ex_request (Some ex_login_session)) ex_login_session eq_refl)
    as (Hok & _).
  destruct (Hok (ex_tokens (Some "new-refresh")) ex_user eq_refl eq_refl)
    as (_ & Hresp & _).
  exact Hresp.
Defined.

(** C8. The claim holds of every failure but one kind, which the handler
    misses: its [catch] clause builds the failure URL against a base made of
    the request's protocol and [Host] header, and nothing guards that
    construction. A callback request whose [Host] header is empty gives the
    base [http://], the [URL] constructor throws inside the [catch] clause,
    the handler's promise rejects and no redirect (no response at all) is
    sent, although the failure is a [BlitzWareAuthError] with code
    [invalid_state]. *)
Lemma blitzwareCallback_rejects_on_empty_host :
  let cfg := ex_callback_config
               (ex_client (inl ex_refresh_failed) (inl ex_userinfo_failed)
                          (inl ex_invalid_state) (inr tt)) in
  let req := ex_request_empty_host (Some ex_login_session) in
  let h := blitzwareCallback ex_platform_hosts cfg req in
  req_session req = Some ex_login_session /\
  callback_fails_with cfg req ex_login_session ex_invalid_state /\
  cb_errorTarget cfg = "/login?error=auth_failed" /\
  request_base req = "http://" /\
  fst (h (init_world req)) = inl (OtherError "TypeError: Invalid URL") /\
  ~ completes h req /\
  responses (w_trace (run h req)) = [] /\
  w_trace (run h req) =
    [EvHandleCallback (req_query req) (VStr "st0") (VStr "cv0");
     EvLog LWarn "OAuth callback failed"].
Proof.
  cbn zeta. split; [reflexivity|]. split; [left; reflexivity|].
  split; [reflexivity|]. split; [reflexivity|]. split; [reflexivity|].
  split; [|split; reflexivity].
  unfold completes. intros H. vm_compute in H. discriminate.
Qed.

(** X22. When the callback fails with a [BlitzWareAuthError] and the
    configured failure location parses as a URL, the handler redirects to
    that location with the query parameter [error_code] set to the error's
    code. The redirect is a function of the failure location, the request's
    base and the code alone: the error's message and details do not enter
    it. *)
Theorem blitzwareCallback_error_code
    platform cfg req (s : gmap string jsval) code message details url :
  req_session req = Some s ->
  callback_fails_with cfg req s (BlitzWareAuthError code message details) ->
  URL_new platform (cb_errorTarget cfg) (request_base req) = inr url ->
  let w := run (blitzwareCallback platform cfg req) req in
  let target := searchParams_set "error_code" code url in
  completes (blitzwareCallback platform cfg req) req /\
  responses (w_trace w) = [Redirect (URL_toString platform target)] /\
  searchParams_get "error_code" target = Some code /\
  url_location target = url_location url /\
  url_hash target = url_hash url /\
  (forall name, name <> "error_code" ->
                searchParams_get name target = searchParams_get name url) /\
  (forall message' details',
     callback_on_error platform cfg req (BlitzWareAuthError code message' details') =
     callback_on_error platform cfg req (BlitzWareAuthError code message details)).
Proof.
  intros Hs Hfail Hurl. cbn zeta.
  destruct (callback_failure_response platform cfg req s Hs _ url Hfail Hurl)
    as (Hdone & Hresp).
  split; [exact Hdone|]. split; [exact Hresp|].
  split; [apply params_get_set_same|]. split; [done|]. split; [done|].
  split; [|done].
  intros name Hne. by apply params_get_set_other.
Qed.

Lemma blitzwareCallback_error_code_witness :
  let cfg := ex_callback_config
               (ex_client (inl ex_refresh_failed) (inl ex_userinfo_failed)
                          (inl ex_invalid_state) (inr tt)) in
  let req := ex_request (Some ex_login_session) in
  req_session req = Some ex_login_session /\
  callback_fails_with cfg req ex_login_session ex_invalid_state /\
  responses (w_trace (run (blitzwareCallback ex_platform cfg req) req)) =
    [Redirect "http://localhost:3000/login?error=auth_failed&error_code=invalid_state"].
Proof.
  cbn zeta. split; [reflexivity|]. split; [left; reflexivity|].
  destruct (blitzwareCallback_error_code ex_platform
              (ex_callback_config
                 (ex_client (inl ex_refresh_failed) (inl ex_userinfo_failed)
                            (inl ex_invalid_state) (inr tt)))
              (ex_request (Some ex_login_session)) ex_login_session
              "invalid_state" "Invalid state parameter" None
              {| url_location := "http://localhost:3000/login";
                 url_searchParams := [("error", "auth_failed")];
                 url_hash := EmptyString |}
              eq_refl (or_introl eq_refl) eq_refl)
    as (_ & Hresp & _).
  exact Hresp.
Defined.

(** C10. When the callback fails with an error that is not a
    [BlitzWareAuthError] and the configured failure location parses as a
    URL, the handler redirects to that location with the query parameter
    [error] set to [auth_failed]; it adds no [error_code]: that parameter is
    in the redirect only if the configured location already carried it. *)
Theorem blitzwareCallback_other_error
    platform cfg req (s : gmap string jsval) message url :
  req_session req = Some s ->
  callback_fails_with cfg req s (OtherError message) ->
  URL_new platform (cb_errorTarget cfg) (request_base req) = inr url ->
  let w := run (blitzwareCallback platform cfg req) req in
  let target := searchParams_set "error" "auth_failed" url in
  completes (blitzwareCallback platform cfg req) req /\
  responses (w_trace w) = [Redirect (URL_toString platform target)] /\
  searchParams_get "error" target = Some "auth_failed" /\
  searchParams_get "error_code" target = searchParams_get "error_code" url /\
  (searchParams_get "error_code" url = None ->
   searchParams_get "error_code" target = None).
Proof.
  intros Hs Hfail Hurl. cbn zeta.
  destruct (callback_failure_response platform cfg req s Hs _ url Hfail Hurl)
    as (Hdone & Hresp).
  split; [exact Hdone|]. split; [exact Hresp|].
  split; [apply params_get_set_same|].
  assert (Hother : searchParams_get "error_code"
                     (searchParams_set "error" "auth_failed" url) =
                   searchParams_get "error_code" url).
  { apply params_get_set_other. discriminate. }
  split; [exact Hother|]. intros Hnone. by rewrite Hother.
Qed.

Lemma blitzwareCallback_other_error_witness :
  let cfg := ex_callback_config
               (ex_client (inl ex_refresh_failed) (inl ex_userinfo_failed)
                          (inl (OtherError "socket hang up")) (inr tt)) in
  let req := ex_request (Some ex_login_session) in
  req_session req = Some ex_login_session /\
  callback_fails_with cfg req ex_login_session (OtherError "socket hang up") /\
  responses (w_trace (run (blitzwareCallback ex_platform cfg req) req)) =
    [Redirect "http://localhost:3000/login?error=auth_failed"].
Proof.
  cbn zeta. split; [reflexivity|]. split; [left; reflexivity|].
  destruct (blitzwareCallback_other_error ex_platform
              (ex_callback_config
                 (ex_client (inl ex_refresh_failed) (inl ex_userinfo_failed)
                            (inl (OtherError "socket hang up")) (inr tt)))
              (ex_request (Some ex_login_session)) ex_login_session
              "socket hang up"
              {| url_location := "http://localhost:3000/login";
                 url_searchParams := [("error", "auth_failed")];
                 url_hash := EmptyString |}
              eq_refl (or_introl eq_refl) eq_refl)
    as (_ & Hresp & _).
  exact Hresp.
Defined.

(** Outside the hypothesis of the two statements above: when the [URL]
    constructor throws inside the [catch] clause, the handler's promise
    rejects and no response is sent. *)
Remark blitzwareCallback_unparsable_failure_location
    platform cfg req (s : gmap string jsval) e e' :
  req_session req = Some s ->
  callback_fails_with cfg req s e ->
  URL_new platform (cb_errorTarget cfg) (request_base req) = inl e' ->
  fst (blitzwareCallback platform cfg req (init_world req)) = inl e' /\
  responses (w_trace (run (blitzwareCallback platform cfg req) req)) = [].
Proof.
  intros Hs [Hout|(tr & Hout & Hinfo)] Hurl.
  - split.
    + unfold_js. rewrite Hs. cbn. rewrite Hout. cbn. rewrite Hurl. done.
    + destruct (run_callback_rejected platform cfg req s Hs e Hout) as (_ & ->).
      unfold failure_tail. rewrite Hurl. done.
  - split.
    + unfold_js. rewrite Hs. cbn. rewrite Hout. cbn.
      destruct (truthy (jsval_of_opt (refresh_token tr))); cbn; rewrite Hinfo; cbn;
        rewrite Hurl; done.
    + destruct (run_callback_userinfo_rejected platform cfg req s Hs tr e Hout Hinfo)
        as (_ & ->).
      unfold failure_tail. rewrite Hurl.
      change (?x :: ?l ++ ?y :: ?t)%list with ([x] ++ l ++ y :: t)%list.
      rewrite !responses_app, responses_token_writes. done.
Qed.

(** ** The logout handler *)

Lemma string_app_assoc (x y z : string) : (x ++ y) ++ z = x ++ (y ++ z).
Proof.
  induction x as [|c x IH]; [done|].
  change (String c ((x ++ y) ++ z) = String c (x ++ (y ++ z))). by f_equal.
Qed.

Lemma string_app_empty_r (x : string) : x ++ EmptyString = x.
Proof.
  induction x as [|c x IH]; [done|].
  change (String c (x ++ EmptyString) = String c x). by f_equal.
Qed.

Lemma contains_trans (a b c : string) : contains a b -> contains b c -> contains a c.
Proof.
  intros (p1 & q1 & ->) (p2 & q2 & ->).
  exists (p1 ++ p2), (q2 ++ q1). by rewrite !string_app_assoc.
Qed.

Lemma contains_concat (sep x : string) (l : list string) :
  In x l -> contains (String.concat sep l) x.
Proof.
  induction l as [|y l IH]; [done|]. intros [->|Hin].
  - destruct l as [|z l].
    + exists EmptyString, EmptyString. cbn. by rewrite string_app_empty_r.
    + exists EmptyString, (sep ++ String.concat sep (z :: l)). done.
  - destruct l as [|z l]; [done|].
    destruct (IH Hin) as (p & q & Heq).
    exists (y ++ sep ++ p), q.
    change (String.concat sep (y :: z :: l))
      with (y ++ sep ++ String.concat sep (z :: l)).
    by rewrite Heq, !string_app_assoc.
Qed.

Lemma navigate_line_contains url : contains (navigate_line url) (navigation_to url).
Proof.
  exists "            ", ";". unfold navigate_line, navigation_to.
  rewrite !string_app_assoc. reflexivity.
Qed.

(** The page leaves for the destination on both branches of its script. *)
Lemma logoutPage_navigates logoutUrl clientId redirectUrl :
  contains (logoutPage logoutUrl clientId redirectUrl) (navigate_line redirectUrl) /\
  contains (logoutPage logoutUrl clientId redirectUrl)
           (fallback_navigate_line redirectUrl).
Proof.
  unfold logoutPage. split; apply contains_concat; cbn; tauto.
Qed.

Section blitzwareLogout_facts.
Variable cfg : LogoutConfig.
Variable req : Request.
Variable s : gmap string jsval.
Hypothesis Hsession : req_session req = Some s.

Lemma run_logout_front :
  lo_frontChannelOn cfg = true ->
  let w := run (blitzwareLogout cfg) req in
  completes (blitzwareLogout cfg) req /\
  w_session w = Some (cleared_session cfg s) /\
  w_trace w =
    (clearing_writes cfg ++
     [EvSetHeader "Content-Type" "text/html; charset=utf-8";
      EvRespond (Send 200 (logoutPage (logoutUrl_of_client cfg)
                                      (getConfig_clientId (lo_blitzware cfg))
                                      (lo_redirectTarget cfg)))])%list.
Proof.
  intros Hfront. cbn zeta. unfold cleared_session, clearing_writes. unfold_js.
  rewrite Hsession. cbn. rewrite Hfront. cbn. done.
Qed.

Lemma run_logout_back :
  lo_frontChannelOn cfg = false ->
  let w := run (blitzwareLogout cfg) req in
  completes (blitzwareLogout cfg) req /\
  w_session w = Some (cleared_session cfg s) /\
  w_trace w =
    (clearing_writes cfg ++
     EvLogout ::
     match logout (lo_blitzware cfg) with
     | inl _ => [EvLog LWarn "Service logout (back-channel) failed"]
     | inr _ => []
     end ++
     [EvRespond (Redirect (lo_redirectTarget cfg))])%list.
Proof.
  intros Hback. cbn zeta. unfold cleared_session, clearing_writes. unfold_js.
  rewrite Hsession. cbn. rewrite Hback. cbn.
  destruct (logout (lo_blitzware cfg)) as [e|[]]; cbn; done.
Qed.
End blitzwareLogout_facts.

Lemma until_quote_plain (d rest : string) :
  plain_text d = true -> until_quote (d ++ String single_quote rest) = d.
Proof.
  induction d as [|c d IH]; intros Hplain.
  - change (until_quote (String single_quote rest) = EmptyString).
    cbn. by rewrite Ascii.eqb_refl.
  - change (until_quote (String c (d ++ String single_quote rest)) = String c d).
    cbn in Hplain. apply andb_true_iff in Hplain as [Hc Hd].
    unfold plain_char in Hc. rewrite !andb_true_iff in Hc.
    destruct Hc as [[[Hq _] _] _]. apply negb_true_iff in Hq.
    cbn. rewrite Hq. by rewrite IH.
Qed.

(** What the two navigation statements of the page denote, for a
    destination that can stand between single quotes as it is. *)
Lemma navigation_target_plain (d : string) :
  plain_text d = true ->
  navigation_target (navigate_line d) = Some d /\
  navigation_target (fallback_navigate_line d) = Some d.
Proof.
  intros Hplain. unfold navigation_target. split.
  - change (after_first navigation_call (navigate_line d))
      with (Some (d ++ String single_quote ");")).
    cbn. by rewrite until_quote_plain.
  - change (after_first navigation_call (fallback_navigate_line d))
      with (Some (d ++ String single_quote "); }, 500);")).
    cbn. by rewrite until_quote_plain.
Qed.




(** ** The paths of the token-validated middleware *)

Lemma world_eq (w : world) ses usr tok tr :
  w_session w = ses -> w_blitzwareUser w = usr ->
  w_blitzwareAccessToken w = tok -> w_trace w = tr ->
  w = {| w_session := ses; w_blitzwareUser := usr;
         w_blitzwareAccessToken := tok; w_trace := tr |}.
Proof. destruct w. cbn. by intros -> -> -> ->. Qed.

Lemma blitzwareAuth_never_rejects cfg req : completes (blitzwareAuth cfg) req.
Proof.
  unfold_js.
  destruct (req_session req) as [s|]; cbn; [|done].
  destruct (truthy (session_get s (accessTokenKey cfg))); cbn; [|done].
  destruct (validateTokenAndGetUser _ _); cbn.
  - destruct (autoRefreshOn cfg); cbn; [|done].
    destruct (truthy (session_get s (refreshTokenKey cfg))); cbn; [|done].
    destruct (refreshToken _ _) as [|tr]; cbn; [done|].
    destruct (truthy (jsval_of_opt (refresh_token tr))); cbn;
      destruct (getUserInfo _ _); cbn; destruct (attachUserOn cfg); done.
  - destruct (attachUserOn cfg); done.
Qed.

Lemma blitzwareAuth_follows_path cfg req :
  auth_path cfg req (run (blitzwareAuth cfg) req).
Proof.
  destruct (req_session req) as [s|] eqn:Hs.
  2: { unfold_js. rewrite Hs. cbn. by constructor. }
  destruct (truthy (session_get s (accessTokenKey cfg))) eqn:Hat.
  2: { unfold_js. rewrite Hs. cbn. rewrite Hat. cbn. by constructor. }
  destruct (validateTokenAndGetUser (blitzware cfg) (session_get s (accessTokenKey cfg)))
    as [e|usr] eqn:Hval.
  2: { unfold_js. rewrite Hs. cbn. rewrite Hat. cbn. rewrite Hval. cbn.
       destruct (attachUserOn cfg) eqn:Hatt; cbn.
       - pose proof (auth_validated cfg req s usr Hs Hat Hval) as H.
         rewrite Hatt in H. exact H.
       - pose proof (auth_validated cfg req s usr Hs Hat Hval) as H.
         rewrite Hatt in H. exact H. }
  destruct (autoRefreshOn cfg) eqn:Hauto.
  2: { eapply (auth_abandoned cfg req s e [EvLog LWarn "Token validation failed"]
                 _ Hs Hat Hval); [|by left].
       eapply run_no_refresh; eauto. }
  destruct (truthy (session_get s (refreshTokenKey cfg))) eqn:Hrt.
  2: { eapply (auth_abandoned cfg req s e [EvLog LWarn "Token validation failed"]
                 _ Hs Hat Hval); [|by left].
       eapply run_no_refresh; eauto. }
  destruct (refreshToken (blitzware cfg) (session_get s (refreshTokenKey cfg)))
    as [e'|tr] eqn:Href.
  { eapply (auth_abandoned cfg req s e
              [EvRefreshToken (session_get s (refreshTokenKey cfg));
               EvLog LWarn "Token refresh failed"] _ Hs Hat Hval);
      [|by right; left].
    eapply run_refresh_rejected; eauto. }
  destruct (getUserInfo (blitzware cfg) (access_token tr)) as [e'|usr] eqn:Hinfo.
  { eapply (auth_abandoned cfg req s e
              (EvRefreshToken (session_get s (refreshTokenKey cfg)) ::
               token_writes (accessTokenKey cfg) (refreshTokenKey cfg) tr ++
               [EvGetUserInfo (access_token tr); EvLog LWarn "Token refresh failed"])%list
              _ Hs Hat Hval).
    - eapply (run_userinfo_rejected cfg req s Hs e tr e'); eauto.
    - right. right. exists tr. split; [done|]. reflexivity. }
  destruct (run_refreshed cfg req s Hs e tr usr Hat Hval Hauto Hrt Href Hinfo)
    as (_ & H1 & H2 & H3 & H4).
  rewrite (world_eq _ _ _ _ _ H1 H3 H4 H2).
  by eapply auth_refreshed.
Qed.

Lemma next_count_app (t1 t2 : list event) :
  next_count (t1 ++ t2) = next_count t1 + next_count t2.
Proof. unfold next_count. by rewrite List.filter_app, length_app. Qed.

Lemma next_count_token_writes aKey rKey tr : next_count (token_writes aKey rKey tr) = 0.
Proof. unfold token_writes. by destruct (truthy (jsval_of_opt (refresh_token tr))). Qed.

Lemma written_keys_app (t1 t2 : list event) :
  written_keys (t1 ++ t2) = (written_keys t1 ++ written_keys t2)%list.
Proof.
  induction t1 as [|e t1 IH]; [done|]. destruct e; cbn; rewrite ?IH; done.
Qed.

Lemma written_keys_token_writes aKey rKey tr k :
  In k (written_keys (token_writes aKey rKey tr)) -> k = aKey \/ k = rKey.
Proof.
  unfold token_writes. destruct (truthy (jsval_of_opt (refresh_token tr))); cbn;
    intuition.
Qed.

Lemma with_tokens_other aKey rKey tr (s : gmap string jsval) k :
  k <> aKey -> k <> rKey -> with_tokens aKey rKey tr s !! k = s !! k.
Proof.
  intros Ha Hr. unfold with_tokens.
  destruct (truthy (jsval_of_opt (refresh_token tr)));
    rewrite ?lookup_insert_ne by congruence; done.
Qed.

(** X2. Whatever the request, the configuration and the client's answers,
    the promise of [blitzwareAuth] does not reject, and the run either sends
    exactly one response and never calls [next], or calls [next] exactly
    once and sends no response. *)
Theorem blitzwareAuth_responds_or_continues cfg req :
  let w := run (blitzwareAuth cfg) req in
  completes (blitzwareAuth cfg) req /\
  ((exists r, responses (w_trace w) = [r]) /\ next_count (w_trace w) = 0 \/
   responses (w_trace w) = [] /\ next_count (w_trace w) = 1).
Proof.
  cbn zeta. split; [apply blitzwareAuth_never_rejects|].
  destruct (blitzwareAuth_follows_path cfg req)
    as [Hs|s Hs Hat|s usr Hs Hat Hval|s e tr usr Hs Hat Hval Hauto Hrt Href Hinfo
       |s e pre w Hs Hat Hval (Hsess & Htr & Hu & Ht) Hpre];
    cbn [w_trace].
  - left. eauto.
  - left. eauto.
  - right. done.
  - right. rewrite !responses_app, responses_token_writes.
    rewrite !next_count_app, next_count_token_writes. done.
  - left. rewrite Htr.
    change (?x :: ?l)%list with ([x] ++ l)%list at 1.
    rewrite !responses_app, !next_count_app.
    destruct Hpre as [->|[->|(tr & _ & ->)]]; [cbn; eauto..|].
    unfold token_writes.
    destruct (truthy (jsval_of_opt (refresh_token tr))); cbn; eauto.
Qed.

(** X1. The session's access token validates: [blitzwareAuth] makes this one
    call and no other, overwrites the session's user field with the returned
    profile, leaves every other session field as it was, calls [next] and
    sends nothing. With [attachUser] on it attaches the profile and the
    session's access token to the request; with [attachUser] off it attaches
    nothing. *)
Theorem blitzwareAuth_validation_success cfg req (s : gmap string jsval) usr :
  req_session req = Some s ->
  truthy (session_get s (accessTokenKey cfg)) = true ->
  validateTokenAndGetUser (blitzware cfg) (session_get s (accessTokenKey cfg)) = inr usr ->
  let w := run (blitzwareAuth cfg) req in
  w_trace w =
    [EvValidateTokenAndGetUser (session_get s (accessTokenKey cfg));
     EvSessionSet (userKey cfg) (VUser usr); EvNext] /\
  (exists s',
     w_session w = Some s' /\
     session_get s' (userKey cfg) = VUser usr /\
     forall k, k <> userKey cfg -> s' !! k = s !! k) /\
  (attachUserOn cfg = true ->
   w_blitzwareUser w = VUser usr /\
   w_blitzwareAccessToken w = session_get s (accessTokenKey cfg)) /\
  (attachUserOn cfg = false ->
   w_blitzwareUser w = VUndefined /\ w_blitzwareAccessToken w = VUndefined).
Proof.
  intros Hs Hat Hval. cbn zeta.
  destruct (blitzwareAuth_follows_path cfg req)
    as [Hs'|s0 Hs' Hat'|s0 usr0 Hs' Hat' Hval'
       |s0 e tr usr0 Hs' Hat' Hval' Hauto Hrt Href Hinfo
       |s0 e pre w Hs' Hat' Hval' Hab Hpre];
    rewrite Hs in Hs'; try discriminate; injection Hs' as <-; try congruence.
  rewrite Hval in Hval'. injection Hval' as <-.
  cbn [w_trace w_session w_blitzwareUser w_blitzwareAccessToken].
  split; [done|]. split.
  - eexists. split; [done|]. split; [apply session_get_insert|].
    intros k Hk. by rewrite lookup_insert_ne by congruence.
  - split; intros ->; done.
Qed.

Lemma blitzwareAuth_refresh_needs_autoRefresh cfg req token :
  autoRefreshOn cfg = false ->
  ~ In (EvRefreshToken token) (w_trace (run (blitzwareAuth cfg) req)).
Proof.
  intros Hoff. unfold_js.
  destruct (req_session req) as [s|]; cbn; [|intuition discriminate].
  destruct (truthy (session_get s (accessTokenKey cfg))); cbn;
    [|intuition discriminate].
  destruct (validateTokenAndGetUser _ _); cbn.
  - rewrite Hoff. cbn. intuition discriminate.
  - destruct (attachUserOn cfg); cbn; intuition discriminate.
Qed.

(** X3. The calls [blitzwareAuth] makes to the client are, in this order, a
    prefix of: validate the session's access token, refresh with the
    session's refresh token, fetch the user with the access token the refresh
    returned. Without a session it makes none, and with [autoRefresh] off it
    never calls refresh. *)
Theorem blitzwareAuth_call_sequence cfg req :
  let w := run (blitzwareAuth cfg) req in
  match req_session req with
  | None => network_calls (w_trace w) = []
  | Some s =>
      let validate := EvValidateTokenAndGetUser (session_get s (accessTokenKey cfg)) in
      let refresh := EvRefreshToken (session_get s (refreshTokenKey cfg)) in
      network_calls (w_trace w) = [] \/
      network_calls (w_trace w) = [validate] \/
      network_calls (w_trace w) = [validate; refresh] \/
      exists tr,
        refreshToken (blitzware cfg) (session_get s (refreshTokenKey cfg)) = inr tr /\
        network_calls (w_trace w) = [validate; refresh; EvGetUserInfo (access_token tr)]
  end /\
  (autoRefreshOn cfg = false ->
   forall token, ~ In (EvRefreshToken token) (w_trace w)).
Proof.
  cbn zeta. split.
  2: { intros Hoff token. by apply blitzwareAuth_refresh_needs_autoRefresh. }
  destruct (blitzwareAuth_follows_path cfg req)
    as [Hs|s Hs Hat|s usr Hs Hat Hval|s e tr usr Hs Hat Hval Hauto Hrt Href Hinfo
       |s e pre w Hs Hat Hval (Hsess & Htr & Hu & Ht) Hpre];
    rewrite Hs; cbn [w_trace].
  - done.
  - by left.
  - by right; left.
  - right. right. right. exists tr. split; [done|].
    unfold token_writes. by destruct (truthy (jsval_of_opt (refresh_token tr))).
  - rewrite Htr. destruct Hpre as [->|[->|(tr & Href & ->)]].
    + by right; left.
    + by right; right; left.
    + right. right. right. exists tr. split; [done|].
      unfold token_writes. by destruct (truthy (jsval_of_opt (refresh_token tr))).
Qed.

(** X4. [blitzwareAuth] assigns only to the three configured session fields
    (access token, refresh token, user): every other field of the session,
    such as the state and verifier of a login in progress, has after the run
    the value it had before. *)
Theorem blitzwareAuth_session_frame cfg req (s : gmap string jsval) :
  req_session req = Some s ->
  let w := run (blitzwareAuth cfg) req in
  (forall k, In k (written_keys (w_trace w)) ->
             k = accessTokenKey cfg \/ k = refreshTokenKey cfg \/ k = userKey cfg) /\
  exists s',
    w_session w = Some s' /\
    forall k, k <> accessTokenKey cfg -> k <> refreshTokenKey cfg -> k <> userKey cfg ->
              s' !! k = s !! k.
Proof.
  intros Hs0. cbn zeta.
  destruct (blitzwareAuth_follows_path cfg req)
    as [Hs|s0 Hs Hat|s0 usr Hs Hat Hval|s0 e tr usr Hs Hat Hval Hauto Hrt Href Hinfo
       |s0 e pre w Hs Hat Hval (Hsess & Htr & Hu & Ht) Hpre];
    rewrite Hs0 in Hs; try discriminate; injection Hs as <-;
    cbn [w_trace w_session].
  - split; [intros k []|]. eauto.
  - split; [cbn; intuition (subst; auto)|]. eexists. split; [done|].
    intros k _ _ Hk. by rewrite lookup_insert_ne by congruence.
  - split.
    + intros k. rewrite !written_keys_app, !in_app_iff. intros [H|[H|H]].
      * by cbn in H.
      * apply written_keys_token_writes in H. tauto.
      * cbn in H. intuition (subst; auto).
    + eexists. split; [done|]. intros k Ha Hr Hu.
      rewrite lookup_insert_ne by congruence. by apply with_tokens_other.
  - split.
    + rewrite Htr. intros k.
      change (?x :: pre)%list with ([x] ++ pre)%list.
      rewrite !written_keys_app, !in_app_iff.
      intros [[H|H]|H]; [by cbn in H| |cbn in H; intuition (subst; auto)].
      destruct Hpre as [->|[->|(tr & _ & ->)]]; [by cbn in H..|].
      change (?x :: ?l ++ ?t)%list with ([x] ++ l ++ t)%list in H.
      rewrite !written_keys_app, !in_app_iff in H.
      destruct H as [H|[H|H]]; [by cbn in H| |by cbn in H].
      apply written_keys_token_writes in H. tauto.
    + eexists. split; [exact Hsess|]. intros k Hka Hkr Hku.
      by rewrite !lookup_insert_ne by congruence.
Qed.


Lemma blitzwareAuth_validation_success_witness :
  let cfg := ex_config ex_valid_client in
  let req := ex_request (Some ex_session) in
  req_session req = Some ex_session /\
  truthy (session_get ex_session (accessTokenKey cfg)) = true /\
  w_blitzwareAccessToken (run (blitzwareAuth cfg) req) = VStr "old-access".
Proof.
  cbn zeta. split; [reflexivity|]. split; [reflexivity|].
  destruct (blitzwareAuth_validation_success (ex_config ex_valid_client)
              (ex_request (Some ex_session)) ex_session ex_user
              eq_refl eq_refl eq_refl)
    as (_ & _ & Hattach & _).
  exact (proj2 (Hattach eq_refl)).
Defined.

Lemma blitzwareAuth_session_frame_witness :
  let cfg := ex_config (ex_client (inr (ex_tokens (Some "new-refresh"))) (inr ex_user)
                                  (inl ex_invalid_state) (inr tt)) in
  let req := ex_request (Some (<["oauthState" := VStr "st0"]> ex_session)) in
  req_session req = Some (<["oauthState" := VStr "st0"]> ex_session) /\
  exists s',
    w_session (run (blitzwareAuth cfg) req) = Some s' /\
    s' !! "oauthState" = Some (VStr "st0").
Proof.
  cbn zeta. split; [reflexivity|].
  destruct (blitzwareAuth_session_frame
              (ex_config (ex_client (inr (ex_tokens (Some "new-refresh"))) (inr ex_user)
                                    (inl ex_invalid_state) (inr tt)))
              (ex_request (Some (<["oauthState" := VStr "st0"]> ex_session)))
              (<["oauthState" := VStr "st0"]> ex_session) eq_refl)
    as (_ & s' & Hs' & Hframe).
  exists s'. split; [exact Hs'|].
  exact (Hframe "oauthState" ltac:(cbv; discriminate) ltac:(cbv; discriminate)
                ltac:(cbv; discriminate)).
Defined.

Lemma run_without_token cfg req (s : gmap string jsval) :
  req_session req = Some s ->
  truthy (session_get s (accessTokenKey cfg)) = false ->
  w_trace (run (blitzwareAuth cfg) req) = [EvRespond (Redirect (loginTarget cfg))].
Proof. intros Hs Hat. unfold_js. rewrite Hs. cbn. rewrite Hat. done. Qed.

Lemma run_first_call cfg req (s : gmap string jsval) :
  req_session req = Some s ->
  truthy (session_get s (accessTokenKey cfg)) = true ->
  exists rest,
    w_trace (run (blitzwareAuth cfg) req) =
      EvValidateTokenAndGetUser (session_get s (accessTokenKey cfg)) :: rest.
Proof.
  intros Hs0 Hat0.
  destruct (blitzwareAuth_follows_path cfg req)
    as [Hs|s0 Hs Hat|s0 usr Hs Hat Hval|s0 e tr usr Hs Hat Hval Hauto Hrt Href Hinfo
       |s0 e pre w Hs Hat Hval (Hsess & Htr & Hu & Ht) Hpre];
    rewrite Hs0 in Hs; try discriminate; injection Hs as <-; try congruence;
    cbn [w_trace]; eauto.
Qed.

(** X6. Once [blitzwareAuth] has turned a request with a session away, the
    next request on that session is redirected to the login URL without any
    call to the client: a token that failed is not tried again. *)
Theorem blitzwareAuth_rejection_sticks cfg req req' (s : gmap string jsval) :
  req_session req = Some s ->
  next_called (w_trace (run (blitzwareAuth cfg) req)) = false ->
  follows req' (run (blitzwareAuth cfg) req) ->
  w_trace (run (blitzwareAuth cfg) req') = [EvRespond (Redirect (loginTarget cfg))].
Proof.
  unfold follows. intros Hs0.
  destruct (blitzwareAuth_follows_path cfg req)
    as [Hs|s0 Hs Hat|s0 usr Hs Hat Hval|s0 e tr usr Hs Hat Hval Hauto Hrt Href Hinfo
       |s0 e pre w Hs Hat Hval (Hsess & Htr & Hu & Ht) Hpre];
    rewrite Hs0 in Hs; try discriminate; injection Hs as <-;
    cbn [w_trace w_session].
  - intros _ Hreq. by eapply run_without_token.
  - rewrite !next_called_app. cbn. rewrite orb_true_r. discriminate.
  - intros _ Hreq. rewrite Hsess in Hreq.
    eapply run_without_token; [exact Hreq|].
    destruct (cleared_fields s (accessTokenKey cfg) (refreshTokenKey cfg) (userKey cfg))
      as (-> & _). done.
Qed.

Lemma blitzwareAuth_rejection_sticks_witness :
  let cfg := ex_config (ex_client (inl ex_refresh_failed) (inl ex_userinfo_failed)
                                  (inl ex_invalid_state) (inr tt)) in
  let req := ex_request (Some ex_session) in
  let req' := ex_request (w_session (run (blitzwareAuth cfg) req)) in
  req_session req = Some ex_session /\
  next_called (w_trace (run (blitzwareAuth cfg) req)) = false /\
  follows req' (run (blitzwareAuth cfg) req) /\
  w_trace (run (blitzwareAuth cfg) req') = [EvRespond (Redirect "/login")].
Proof.
  cbn zeta. do 3 (split; [reflexivity|]).
  exact (blitzwareAuth_rejection_sticks
           (ex_config (ex_client (inl ex_refresh_failed) (inl ex_userinfo_failed)
                                 (inl ex_invalid_state) (inr tt)))
           (ex_request (Some ex_session))
           (ex_request (w_session (run (blitzwareAuth
              (ex_config (ex_client (inl ex_refresh_failed) (inl ex_userinfo_failed)
                                    (inl ex_invalid_state) (inr tt))))
              (ex_request (Some ex_session)))))
           ex_session eq_refl eq_refl eq_refl).
Defined.

(** ** The session-only middleware *)

(** X7. With a session, [requireBlitzwareSession] never calls the client and
    never writes the session. A truthy value under the user key makes it call
    [next] and, with [attachUser] on, attach that very value as
    [req.blitzwareUser]; otherwise it redirects to the login URL. It never
    attaches an access token. *)
Theorem requireBlitzwareSession_behaviour socfg req (s : gmap string jsval) :
  req_session req = Some s ->
  let user := session_get s (default "user" (so_userProperty socfg)) in
  let w := run (requireBlitzwareSession socfg) req in
  completes (requireBlitzwareSession socfg) req /\
  w_session w = Some s /\
  network_calls (w_trace w) = [] /\
  session_writes (w_trace w) = [] /\
  w_blitzwareAccessToken w = VUndefined /\
  (truthy user = true ->
   w_trace w = [EvNext] /\
   w_blitzwareUser w = if default true (so_attachUser socfg) then user else VUndefined) /\
  (truthy user = false ->
   w_trace w = [EvRespond (Redirect (default "/login" (so_loginUrl socfg)))] /\
   w_blitzwareUser w = VUndefined).
Proof.
  intros Hs. cbn zeta. unfold_js. rewrite Hs. cbn.
  destruct (truthy (session_get s (default "user" (so_userProperty socfg)))); cbn.
  - destruct (default true (so_attachUser socfg)); cbn; repeat split; done.
  - repeat split; done.
Qed.

Lemma requireBlitzwareSession_behaviour_witness :
  let req := ex_request (Some ex_session) in
  req_session req = Some ex_session /\
  w_trace (run (requireBlitzwareSession ex_session_only_config) req) = [EvNext] /\
  w_blitzwareUser (run (requireBlitzwareSession ex_session_only_config) req) =
    VUser ex_user.
Proof.
  cbn zeta. split; [reflexivity|].
  destruct (requireBlitzwareSession_behaviour ex_session_only_config
              (ex_request (Some ex_session)) ex_session eq_refl)
    as (_ & _ & _ & _ & _ & Hin & _).
  exact (Hin eq_refl).
Defined.

(** ** Further facts: the callback handler *)

Lemma distinct5 (a r u st cv : string) :
  NoDup [a; r; u; st; cv] ->
  a <> r /\ a <> u /\ a <> st /\ a <> cv /\ r <> u /\ r <> st /\ r <> cv /\
  u <> st /\ u <> cv /\ st <> cv.
Proof.
  rewrite !NoDup_cons, !not_elem_of_cons. intros H. repeat split; intros ->; tauto.
Qed.

Lemma callback_first_call platform cfg req (s : gmap string jsval) :
  req_session req = Some s ->
  exists rest,
    w_trace (run (blitzwareCallback platform cfg req) req) =
      EvHandleCallback (req_query req) (session_get s (cb_stateKey cfg))
                       (session_get s (cb_codeVerifierKey cfg)) :: rest.
Proof.
  intros Hs.
  destruct (handleCallback (cb_blitzware cfg) (req_query req)
              (session_get s (cb_stateKey cfg)) (session_get s (cb_codeVerifierKey cfg)))
    as [e|tr] eqn:Hout.
  - destruct (run_callback_rejected platform cfg req s Hs e Hout) as (_ & ->). eauto.
  - destruct (getUserInfo (cb_blitzware cfg) (access_token tr)) as [e|usr] eqn:Hinfo.
    + destruct (run_callback_userinfo_rejected platform cfg req s Hs tr e Hout Hinfo)
        as (_ & ->). eauto.
    + destruct (run_callback_success platform cfg req s Hs tr usr Hout Hinfo)
        as (_ & _ & ->). eauto.
Qed.

Lemma callback_success_session platform cfg req (s : gmap string jsval) tr usr :
  req_session req = Some s ->
  handleCallback (cb_blitzware cfg) (req_query req)
    (session_get s (cb_stateKey cfg)) (session_get s (cb_codeVerifierKey cfg)) = inr tr ->
  getUserInfo (cb_blitzware cfg) (access_token tr) = inr usr ->
  NoDup [cb_accessTokenKey cfg; cb_refreshTokenKey cfg; cb_userKey cfg;
         cb_stateKey cfg; cb_codeVerifierKey cfg] ->
  exists s',
    w_session (run (blitzwareCallback platform cfg req) req) = Some s' /\
    session_get s' (cb_accessTokenKey cfg) = VStr (access_token tr) /\
    session_get s' (cb_userKey cfg) = VUser usr.
Proof.
  intros Hs Hout Hinfo Hkeys.
  apply distinct5 in Hkeys
    as (Har & Hau & Hast & Hacv & Hru & Hrst & Hrcv & Hust & Hucv & Hstcv).
  destruct (run_callback_success platform cfg req s Hs tr usr Hout Hinfo)
    as (_ & Hsess & _).
  eexists. split; [exact Hsess|].
  repeat rewrite (session_get_insert_ne _ (cb_codeVerifierKey cfg)) by congruence.
  repeat rewrite (session_get_insert_ne _ (cb_stateKey cfg)) by congruence.
  split; [|apply session_get_insert].
  rewrite session_get_insert_ne by congruence.
  unfold with_tokens. destruct (truthy (jsval_of_opt (refresh_token tr))).
  - rewrite session_get_insert_ne by congruence. apply session_get_insert.
  - apply session_get_insert.
Qed.

(** X9. A successful callback under five distinct field names: the handler
    calls [handleCallback] with the request's query and the state and
    verifier read from the session, then [getUserInfo] with the new access
    token. Afterwards the session holds the new access token and the profile; a
    non-empty [refresh_token] of the response replaces the stored one, an
    absent or empty one leaves the stored refresh token of an earlier login
    in place; fields other than the five are untouched. *)
Theorem blitzwareCallback_success platform cfg req (s : gmap string jsval) tr usr :
  req_session req = Some s ->
  handleCallback (cb_blitzware cfg) (req_query req)
    (session_get s (cb_stateKey cfg)) (session_get s (cb_codeVerifierKey cfg)) = inr tr ->
  getUserInfo (cb_blitzware cfg) (access_token tr) = inr usr ->
  NoDup [cb_accessTokenKey cfg; cb_refreshTokenKey cfg; cb_userKey cfg;
         cb_stateKey cfg; cb_codeVerifierKey cfg] ->
  let w := run (blitzwareCallback platform cfg req) req in
  network_calls (w_trace w) =
    [EvHandleCallback (req_query req) (session_get s (cb_stateKey cfg))
                      (session_get s (cb_codeVerifierKey cfg));
     EvGetUserInfo (access_token tr)] /\
  exists s',
    w_session w = Some s' /\
    session_get s' (cb_accessTokenKey cfg) = VStr (access_token tr) /\
    session_get s' (cb_userKey cfg) = VUser usr /\
    (forall rt, refresh_token tr = Some rt -> rt <> EmptyString ->
                session_get s' (cb_refreshTokenKey cfg) = VStr rt) /\
    (refresh_token tr = None \/ refresh_token tr = Some EmptyString ->
     session_get s' (cb_refreshTokenKey cfg) = session_get s (cb_refreshTokenKey cfg)) /\
    (forall k, ~ In k [cb_accessTokenKey cfg; cb_refreshTokenKey cfg; cb_userKey cfg;
                       cb_stateKey cfg; cb_codeVerifierKey cfg] ->
               s' !! k = s !! k).
Proof.
  intros Hs Hout Hinfo Hkeys. cbn zeta.
  apply distinct5 in Hkeys
    as (Har & Hau & Hast & Hacv & Hru & Hrst & Hrcv & Hust & Hucv & Hstcv).
  destruct (run_callback_success platform cfg req s Hs tr usr Hout Hinfo)
    as (_ & Hsess & Htr).
  rewrite Htr, Hsess. split.
  { unfold token_writes. by destruct (truthy (jsval_of_opt (refresh_token tr))). }
  eexists. split; [reflexivity|].
  repeat rewrite (session_get_insert_ne _ (cb_codeVerifierKey cfg)) by congruence.
  repeat rewrite (session_get_insert_ne _ (cb_stateKey cfg)) by congruence.
  split; [|split; [|split; [|split]]].
  - rewrite session_get_insert_ne by congruence.
    unfold with_tokens. destruct (truthy (jsval_of_opt (refresh_token tr))).
    + rewrite session_get_insert_ne by congruence. apply session_get_insert.
    + apply session_get_insert.
  - apply session_get_insert.
  - intros rt Hrt Hne. rewrite session_get_insert_ne by congruence.
    by apply with_tokens_refresh.
  - intros Hno. rewrite session_get_insert_ne by congruence.
    unfold with_tokens.
    destruct Hno as [->| ->]; cbn; by rewrite session_get_insert_ne by congruence.
  - intros k Hk. cbn in Hk.
    rewrite !lookup_insert_ne by (intros Heq; tauto).
    apply with_tokens_other; intros ->; tauto.
Qed.

Lemma blitzwareCallback_success_witness :
  let cfg := ex_callback_config ex_valid_client in
  let req := ex_request (Some ex_login_session) in
  req_session req = Some ex_login_session /\
  NoDup [cb_accessTokenKey cfg; cb_refreshTokenKey cfg; cb_userKey cfg;
         cb_stateKey cfg; cb_codeVerifierKey cfg] /\
  network_calls (w_trace (run (blitzwareCallback ex_platform cfg req) req)) =
    [EvHandleCallback [("code", "c0"); ("state", "st0")] (VStr "st0") (VStr "cv0");
     EvGetUserInfo "new-access"].
Proof.
  cbn zeta. split; [reflexivity|].
  assert (Hkeys : NoDup [cb_accessTokenKey (ex_callback_config ex_valid_client);
                         cb_refreshTokenKey (ex_callback_config ex_valid_client);
                         cb_userKey (ex_callback_config ex_valid_client);
                         cb_stateKey (ex_callback_config ex_valid_client);
                         cb_codeVerifierKey (ex_callback_config ex_valid_client)]).
  { change (NoDup ["accessToken"; "refreshToken"; "user"; "oauthState"; "codeVerifier"]).
    rewrite !NoDup_cons, !not_elem_of_cons.
    repeat split; try discriminate; try apply not_elem_of_nil. apply NoDup_nil_2. }
  split; [exact Hkeys|].
  exact (proj1 (blitzwareCallback_success ex_platform (ex_callback_config ex_valid_client)
                  (ex_request (Some ex_login_session)) ex_login_session
                  (ex_tokens (Some "new-refresh")) ex_user
                  eq_refl eq_refl eq_refl Hkeys)).
Defined.

(** X10. When [handleCallback] rejects, the callback handler writes nothing:
    the session is exactly as before, and [getUserInfo] is not called. *)
Theorem blitzwareCallback_exchange_rejected platform cfg req (s : gmap string jsval) e :
  req_session req = Some s ->
  handleCallback (cb_blitzware cfg) (req_query req)
    (session_get s (cb_stateKey cfg)) (session_get s (cb_codeVerifierKey cfg)) = inl e ->
  let w := run (blitzwareCallback platform cfg req) req in
  w_session w = Some s /\
  session_writes (w_trace w) = [] /\
  network_calls (w_trace w) =
    [EvHandleCallback (req_query req) (session_get s (cb_stateKey cfg))
                      (session_get s (cb_codeVerifierKey cfg))].
Proof.
  intros Hs Hout. cbn zeta.
  destruct (run_callback_rejected platform cfg req s Hs e Hout) as (-> & ->).
  unfold failure_tail. destruct (URL_new platform _ _); done.
Qed.

Lemma blitzwareCallback_exchange_rejected_witness :
  let cfg := ex_callback_config
               (ex_client (inl ex_refresh_failed) (inl ex_userinfo_failed)
                          (inl ex_invalid_state) (inr tt)) in
  let req := ex_request (Some ex_login_session) in
  req_session req = Some ex_login_session /\
  w_session (run (blitzwareCallback ex_platform cfg req) req) = Some ex_login_session.
Proof.
  cbn zeta. split; [reflexivity|].
  exact (proj1 (blitzwareCallback_exchange_rejected ex_platform
                  (ex_callback_config
                     (ex_client (inl ex_refresh_failed) (inl ex_userinfo_failed)
                                (inl ex_invalid_state) (inr tt)))
                  (ex_request (Some ex_login_session)) ex_login_session
                  ex_invalid_state eq_refl eq_refl)).
Defined.

(** X11. When the code exchange succeeds and the user-info call rejects,
    the new access token stays in the session although the callback failed;
    fields other than the two token fields are as before, so no profile has
    been stored. *)
Theorem blitzwareCallback_userinfo_rejected platform cfg req (s : gmap string jsval) tr e :
  req_session req = Some s ->
  handleCallback (cb_blitzware cfg) (req_query req)
    (session_get s (cb_stateKey cfg)) (session_get s (cb_codeVerifierKey cfg)) = inr tr ->
  getUserInfo (cb_blitzware cfg) (access_token tr) = inl e ->
  cb_accessTokenKey cfg <> cb_refreshTokenKey cfg ->
  let w := run (blitzwareCallback platform cfg req) req in
  network_calls (w_trace w) =
    [EvHandleCallback (req_query req) (session_get s (cb_stateKey cfg))
                      (session_get s (cb_codeVerifierKey cfg));
     EvGetUserInfo (access_token tr)] /\
  exists s',
    w_session w = Some s' /\
    session_get s' (cb_accessTokenKey cfg) = VStr (access_token tr) /\
    (forall k, k <> cb_accessTokenKey cfg -> k <> cb_refreshTokenKey cfg ->
               s' !! k = s !! k).
Proof.
  intros Hs Hout Hinfo Har. cbn zeta.
  destruct (run_callback_userinfo_rejected platform cfg req s Hs tr e Hout Hinfo)
    as (-> & ->).
  split.
  { unfold failure_tail, token_writes.
    destruct (truthy (jsval_of_opt (refresh_token tr)));
      destruct (URL_new platform _ _); done. }
  eexists. split; [reflexivity|]. split.
  - unfold with_tokens. destruct (truthy (jsval_of_opt (refresh_token tr))).
    + rewrite session_get_insert_ne by congruence. apply session_get_insert.
    + apply session_get_insert.
  - intros k Ha Hr. by apply with_tokens_other.
Qed.

Lemma blitzwareCallback_userinfo_rejected_witness :
  let cfg := ex_callback_config
               (ex_client (inl ex_refresh_failed) (inl ex_userinfo_failed)
                          (inr (ex_tokens None)) (inr tt)) in
  let req := ex_request (Some ex_login_session) in
  req_session req = Some ex_login_session /\
  cb_accessTokenKey cfg <> cb_refreshTokenKey cfg /\
  exists s',
    w_session (run (blitzwareCallback ex_platform cfg req) req) = Some s' /\
    session_get s' (cb_accessTokenKey cfg) = VStr "new-access".
Proof.
  cbn zeta. split; [reflexivity|].
  assert (Hne : cb_accessTokenKey (ex_callback_config
                   (ex_client (inl ex_refresh_failed) (inl ex_userinfo_failed)
                              (inr (ex_tokens None)) (inr tt))) <>
                cb_refreshTokenKey (ex_callback_config
                   (ex_client (inl ex_refresh_failed) (inl ex_userinfo_failed)
                              (inr (ex_tokens None)) (inr tt)))).
  { cbv. discriminate. }
  split; [exact Hne|].
  destruct (blitzwareCallback_userinfo_rejected ex_platform
              (ex_callback_config
                 (ex_client (inl ex_refresh_failed) (inl ex_userinfo_failed)
                            (inr (ex_tokens None)) (inr tt)))
              (ex_request (Some ex_login_session)) ex_login_session
              (ex_tokens None) ex_userinfo_failed eq_refl eq_refl eq_refl Hne)
    as (_ & s' & Hs' & Ha & _).
  exists s'. split; [exact Hs'|exact Ha].
Defined.

(** X12. [blitzwareCallback] never calls [next]. Either it completes and has
    sent exactly one response, or its promise rejects with the error thrown
    by the [URL] constructor in the [catch] clause and no response has been
    sent. *)
Theorem blitzwareCallback_response_discipline platform cfg req :
  let h := blitzwareCallback platform cfg req in
  let w := run h req in
  next_count (w_trace w) = 0 /\
  (completes h req /\ (exists r, responses (w_trace w) = [r]) \/
   (exists e, fst (h (init_world req)) = inl e /\
              URL_new platform (cb_errorTarget cfg) (request_base req) = inl e) /\
   responses (w_trace w) = []).
Proof.
  cbn zeta. unfold next_count. unfold_js.
  destruct (req_session req) as [s|]; cbn; [|split; [done|left; eauto]].
  destruct (handleCallback _ _ _ _) as [e|tr]; cbn.
  - destruct (URL_new platform _ _) as [e'|url] eqn:Hurl; cbn;
      (split; [done|]); [right|left]; eauto.
  - destruct (truthy (jsval_of_opt (refresh_token tr))); cbn;
      destruct (getUserInfo _ _) as [e|usr]; cbn;
      try (split; [done|left; eauto]);
      destruct (URL_new platform _ _) as [e'|url] eqn:Hurl; cbn;
      (split; [done|]); [right|left|right|left]; eauto.
Qed.

(** ** The login handler *)

Ltac unfold_login :=
  unfold blitzwareLogin, call_sync; unfold_js.

Section blitzwareLogin_facts.
Variable cfg : LoginConfig.
Variable req : Request.
Variable s : gmap string jsval.
Hypothesis Hsession : req_session req = Some s.

Lemma run_login_success st url verifier :
  generateState (li_blitzware cfg) = inr st ->
  getAuthorizationUrl (li_blitzware cfg) st (login_params cfg) = inr (url, verifier) ->
  let w := run (blitzwareLogin cfg) req in
  completes (blitzwareLogin cfg) req /\
  w_session w =
    Some (<[li_codeVerifierKey cfg := VStr verifier]> (<[li_stateKey cfg := VStr st]> s)) /\
  w_trace w =
    [EvSessionSet (li_stateKey cfg) (VStr st);
     EvSessionSet (li_codeVerifierKey cfg) (VStr verifier);
     EvRespond (Redirect url)].
Proof.
  intros Hst Hurl. cbn zeta. unfold_login.
  rewrite Hsession. cbn. rewrite Hst. cbn. rewrite Hurl. done.
Qed.

Lemma run_login_failure e :
  (generateState (li_blitzware cfg) = inl e \/
   exists st, generateState (li_blitzware cfg) = inr st /\
              getAuthorizationUrl (li_blitzware cfg) st (login_params cfg) = inl e) ->
  let w := run (blitzwareLogin cfg) req in
  completes (blitzwareLogin cfg) req /\
  w_session w = Some s /\
  w_trace w = [EvLog LError "Login error"; EvRespond (Send 500 "Login failed")].
Proof.
  intros [Hst|(st & Hst & Hurl)]; cbn zeta; unfold_login;
    rewrite Hsession; cbn; rewrite Hst; cbn; [done|]. rewrite Hurl. done.
Qed.
End blitzwareLogin_facts.

(** X13. A successful login stores the generated state and the code verifier
    in the session (the state readable under its own name when the two field
    names differ), leaves the other fields alone, redirects to the
    authorization URL and makes no network call. *)
Theorem blitzwareLogin_success cfg req (s : gmap string jsval) st url verifier :
  req_session req = Some s ->
  generateState (li_blitzware cfg) = inr st ->
  getAuthorizationUrl (li_blitzware cfg) st (login_params cfg) = inr (url, verifier) ->
  let w := run (blitzwareLogin cfg) req in
  completes (blitzwareLogin cfg) req /\
  responses (w_trace w) = [Redirect url] /\
  network_calls (w_trace w) = [] /\
  exists s',
    w_session w = Some s' /\
    session_get s' (li_codeVerifierKey cfg) = VStr verifier /\
    (li_stateKey cfg <> li_codeVerifierKey cfg ->
     session_get s' (li_stateKey cfg) = VStr st) /\
    (forall k, k <> li_stateKey cfg -> k <> li_codeVerifierKey cfg -> s' !! k = s !! k).
Proof.
  intros Hs Hst Hurl. cbn zeta.
  destruct (run_login_success cfg req s Hs st url verifier Hst Hurl)
    as (Hdone & Hsess & Htr).
  rewrite Htr, Hsess. split; [exact Hdone|]. split; [done|]. split; [done|].
  eexists. split; [reflexivity|]. split; [apply session_get_insert|]. split.
  - intros Hne. rewrite session_get_insert_ne by congruence. apply session_get_insert.
  - intros k Hk1 Hk2. by rewrite !lookup_insert_ne by congruence.
Qed.

Lemma blitzwareLogin_success_witness :
  let cfg := ex_login_config (ex_login_client (inr "st1") (inr ex_authorization))
                             None None in
  let req := ex_request (Some ∅) in
  req_session req = Some ∅ /\
  generateState (li_blitzware cfg) = inr "st1" /\
  responses (w_trace (run (blitzwareLogin cfg) req)) =
    [Redirect "https://auth.blitzware.xyz/api/auth/authorize?state=st1"].
Proof.
  cbn zeta. split; [reflexivity|]. split; [reflexivity|].
  destruct (blitzwareLogin_success
              (ex_login_config (ex_login_client (inr "st1") (inr ex_authorization))
                               None None)
              (ex_request (Some ∅)) ∅ "st1"
              "https://auth.blitzware.xyz/api/auth/authorize?state=st1" "verifier1"
              eq_refl eq_refl eq_refl)
    as (_ & Hresp & _).
  exact Hresp.
Defined.

(** X14. When [generateState] or [getAuthorizationUrl] throws, the login
    handler answers 500 [Login failed] and has written nothing: no state or
    verifier of a half-started login is left in the session. *)
Theorem blitzwareLogin_failure_leaves_session cfg req (s : gmap string jsval) e :
  req_session req = Some s ->
  (generateState (li_blitzware cfg) = inl e \/
   exists st, generateState (li_blitzware cfg) = inr st /\
              getAuthorizationUrl (li_blitzware cfg) st (login_params cfg) = inl e) ->
  let w := run (blitzwareLogin cfg) req in
  completes (blitzwareLogin cfg) req /\
  responses (w_trace w) = [Send 500 "Login failed"] /\
  session_writes (w_trace w) = [] /\
  w_session w = Some s.
Proof.
  intros Hs Hfail. cbn zeta.
  destruct (run_login_failure cfg req s Hs e Hfail) as (Hdone & Hsess & Htr).
  rewrite Htr, Hsess. done.
Qed.

Lemma blitzwareLogin_failure_leaves_session_witness :
  let cfg := ex_login_config
               (ex_login_client (inr "st1") (inl (OtherError "entropy source failed")))
               None None in
  let req := ex_request (Some ex_session) in
  req_session req = Some ex_session /\
  w_session (run (blitzwareLogin cfg) req) = Some ex_session.
Proof.
  cbn zeta. split; [reflexivity|].
  destruct (blitzwareLogin_failure_leaves_session
              (ex_login_config
                 (ex_login_client (inr "st1") (inl (OtherError "entropy source failed")))
                 None None)
              (ex_request (Some ex_session)) ex_session
              (OtherError "entropy source failed") eq_refl
              (or_intror (ex_intro _ "st1" (conj eq_refl eq_refl))))
    as (_ & _ & _ & Hsess).
  exact Hsess.
Defined.

(** X15. The parameters handed to [getAuthorizationUrl]: every entry of
    [additionalParams] is passed on as it is, also a [scope] entry, which wins
    over the [scope] option; the [scope] option is used only when
    [additionalParams] has no [scope] and the option is a non-empty string. *)
Theorem login_params_merge cfg :
  (forall k v, li_extraParams cfg !! k = Some v -> login_params cfg !! k = Some v) /\
  (forall k, k <> "scope" -> login_params cfg !! k = li_extraParams cfg !! k) /\
  (li_extraParams cfg !! "scope" = None ->
   login_params cfg !! "scope" =
     match li_scope cfg with
     | Some sc => if String.eqb sc EmptyString then None else Some sc
     | None => None
     end).
Proof.
  unfold login_params. repeat split.
  - intros k v Hk. apply lookup_union_Some_l. exact Hk.
  - intros k Hk. rewrite lookup_union.
    destruct (li_scope cfg) as [sc|]; cbn.
    + destruct (String.eqb sc EmptyString); cbn.
      * rewrite lookup_empty. by destruct (li_extraParams cfg !! k).
      * rewrite lookup_singleton_ne by congruence.
        by destruct (li_extraParams cfg !! k).
    + rewrite lookup_empty. by destruct (li_extraParams cfg !! k).
  - intros Hnone. rewrite lookup_union, Hnone.
    destruct (li_scope cfg) as [sc|]; cbn.
    + destruct (String.eqb sc EmptyString); cbn.
      * by rewrite lookup_empty.
      * by rewrite lookup_singleton_eq.
    + by rewrite lookup_empty.
Qed.

(** X8. Without a session object, [blitzwareCallback] and [blitzwareLogin]
    answer 500 [Session configuration error] and call nothing. *)
Theorem route_handlers_without_session platform ccfg lcfg req :
  req_session req = None ->
  let wc := run (blitzwareCallback platform ccfg req) req in
  let wl := run (blitzwareLogin lcfg) req in
  completes (blitzwareCallback platform ccfg req) req /\
  responses (w_trace wc) = [Send 500 "Session configuration error"] /\
  network_calls (w_trace wc) = [] /\
  completes (blitzwareLogin lcfg) req /\
  responses (w_trace wl) = [Send 500 "Session configuration error"] /\
  network_calls (w_trace wl) = [].
Proof.
  intros Hs. cbn zeta. unfold_login. rewrite Hs. done.
Qed.

Lemma route_handlers_without_session_witness :
  req_session (ex_request None) = None /\
  responses (w_trace (run (blitzwareLogin
     (ex_login_config (ex_login_client (inr "st1") (inr ex_authorization)) None None))
     (ex_request None))) = [Send 500 "Session configuration error"].
Proof.
  split; [reflexivity|].
  destruct (route_handlers_without_session ex_platform
              (ex_callback_config ex_valid_client)
              (ex_login_config (ex_login_client (inr "st1") (inr ex_authorization))
                               None None)
              (ex_request None) eq_refl)
    as (_ & _ & _ & _ & Hresp & _).
  exact Hresp.
Defined.

(** X16. Login followed by callback: with the same two field names, and
    these distinct, the callback handler passes to [handleCallback] exactly
    the state and the verifier that the login handler stored. *)
Theorem login_then_callback platform lcfg ccfg req req' (s : gmap string jsval)
    st url verifier :
  req_session req = Some s ->
  generateState (li_blitzware lcfg) = inr st ->
  getAuthorizationUrl (li_blitzware lcfg) st (login_params lcfg) = inr (url, verifier) ->
  follows req' (run (blitzwareLogin lcfg) req) ->
  cb_stateKey ccfg = li_stateKey lcfg ->
  cb_codeVerifierKey ccfg = li_codeVerifierKey lcfg ->
  li_stateKey lcfg <> li_codeVerifierKey lcfg ->
  exists rest,
    w_trace (run (blitzwareCallback platform ccfg req') req') =
      EvHandleCallback (req_query req') (VStr st) (VStr verifier) :: rest.
Proof.
  unfold follows. intros Hs Hst Hurl Hreq Hk1 Hk2 Hne.
  destruct (run_login_success lcfg req s Hs st url verifier Hst Hurl)
    as (_ & Hsess & _).
  rewrite Hsess in Hreq.
  destruct (callback_first_call platform ccfg req' _ Hreq) as (rest & Htr).
  exists rest. rewrite Htr, Hk1, Hk2.
  rewrite session_get_insert.
  rewrite session_get_insert_ne by congruence. by rewrite session_get_insert.
Qed.

Lemma login_then_callback_witness :
  let lcfg := ex_login_config (ex_login_client (inr "st1") (inr ex_authorization))
                              None None in
  let ccfg := ex_callback_config ex_valid_client in
  let req := ex_request (Some ∅) in
  let req' := ex_request (w_session (run (blitzwareLogin lcfg) req)) in
  req_session req = Some ∅ /\
  follows req' (run (blitzwareLogin lcfg) req) /\
  cb_stateKey ccfg = li_stateKey lcfg /\
  cb_codeVerifierKey ccfg = li_codeVerifierKey lcfg /\
  li_stateKey lcfg <> li_codeVerifierKey lcfg /\
  exists rest,
    w_trace (run (blitzwareCallback ex_platform ccfg req') req') =
      EvHandleCallback (req_query req') (VStr "st1") (VStr "verifier1") :: rest.
Proof.
  cbn zeta. do 4 (split; [reflexivity|]).
  assert (Hne : li_stateKey (ex_login_config
                   (ex_login_client (inr "st1") (inr ex_authorization)) None None) <>
                li_codeVerifierKey (ex_login_config
                   (ex_login_client (inr "st1") (inr ex_authorization)) None None)).
  { cbv. discriminate. }
  split; [exact Hne|].
  exact (login_then_callback ex_platform
           (ex_login_config (ex_login_client (inr "st1") (inr ex_authorization)) None None)
           (ex_callback_config ex_valid_client)
           (ex_request (Some ∅))
           (ex_request (w_session (run (blitzwareLogin
              (ex_login_config (ex_login_client (inr "st1") (inr ex_authorization))
                               None None)) (ex_request (Some ∅)))))
           ∅ "st1" "https://auth.blitzware.xyz/api/auth/authorize?state=st1" "verifier1"
           eq_refl eq_refl eq_refl eq_refl eq_refl eq_refl Hne).
Defined.

Lemma run_logout_session cfg req (s : gmap string jsval) :
  req_session req = Some s ->
  w_session (run (blitzwareLogout cfg) req) = Some (cleared_session cfg s).
Proof.
  intros Hs. destruct (lo_frontChannelOn cfg) eqn:Hfront.
  - by destruct (run_logout_front cfg req s Hs Hfront) as (_ & -> & _).
  - by destruct (run_logout_back cfg req s Hs Hfront) as (_ & -> & _).
Qed.

Lemma cleared_session_idempotent cfg (s : gmap string jsval) :
  cleared_session cfg (cleared_session cfg s) = cleared_session cfg s.
Proof.
  unfold cleared_session. apply map_eq. intros k.
  rewrite !lookup_insert. repeat case_decide; done.
Qed.


(** ** Further facts: the logout handler *)

(** X17. Whatever the request and the client's answer, [blitzwareLogout]
    completes, sends exactly one response and never calls [next]; it calls
    the client at most once, and only with the back-channel strategy; it
    assigns only to the three configured session fields. Without a session
    it still redirects to the configured destination (it does not answer
    500). *)
Theorem blitzwareLogout_response_discipline cfg req :
  let w := run (blitzwareLogout cfg) req in
  completes (blitzwareLogout cfg) req /\
  (exists r, responses (w_trace w) = [r]) /\
  next_count (w_trace w) = 0 /\
  (network_calls (w_trace w) = [] \/
   network_calls (w_trace w) = [EvLogout] /\ lo_frontChannelOn cfg = false) /\
  (forall k, In k (written_keys (w_trace w)) ->
             k = lo_accessTokenKey cfg \/ k = lo_refreshTokenKey cfg \/
             k = lo_userKey cfg) /\
  (req_session req = None ->
   w_trace w =
     [EvLog LError "Session not found. Make sure express-session middleware is configured.";
      EvRespond (Redirect (lo_redirectTarget cfg))]).
Proof.
  cbn zeta. unfold next_count. unfold_js.
  destruct (req_session req) as [s|]; cbn.
  - destruct (lo_frontChannelOn cfg); cbn.
    + repeat split; eauto; [intros k; intuition (subst; auto)|discriminate].
    + destruct (logout (lo_blitzware cfg)) as [e|[]]; cbn;
        (repeat split; eauto; [intros k; intuition (subst; auto)|discriminate]).
  - repeat split; eauto. intros k [].
Qed.

(** X18. After a logout, the next request on that session is redirected to
    the login URL by [blitzwareAuth] (without any call to the client) and by
    [requireBlitzwareSession], when these use the field names the logout
    cleared. *)
Theorem logout_then_protected_routes lcfg cfg socfg req req' (s : gmap string jsval) :
  req_session req = Some s ->
  follows req' (run (blitzwareLogout lcfg) req) ->
  accessTokenKey cfg = lo_accessTokenKey lcfg ->
  default "user" (so_userProperty socfg) = lo_userKey lcfg ->
  w_trace (run (blitzwareAuth cfg) req') = [EvRespond (Redirect (loginTarget cfg))] /\
  w_trace (run (requireBlitzwareSession socfg) req') =
    [EvRespond (Redirect (default "/login" (so_loginUrl socfg)))].
Proof.
  unfold follows. intros Hs Hreq Hka Hku.
  destruct (cleared_fields s (lo_accessTokenKey lcfg) (lo_refreshTokenKey lcfg)
              (lo_userKey lcfg)) as (Ha & _ & Hu).
  pose proof (run_logout_session lcfg req s Hs) as Hsess.
  rewrite Hsess in Hreq. unfold cleared_session in Hreq. split.
  - eapply run_without_token; [exact Hreq|]. by rewrite Hka, Ha.
  - unfold_js. rewrite Hreq. cbn. rewrite Hku, Hu. done.
Qed.

Lemma logout_then_protected_routes_witness :
  let lcfg := ex_logout_config ex_valid_client None in
  let cfg := ex_config ex_valid_client in
  let req := ex_request (Some ex_session) in
  let req' := ex_request (w_session (run (blitzwareLogout lcfg) req)) in
  req_session req = Some ex_session /\
  follows req' (run (blitzwareLogout lcfg) req) /\
  accessTokenKey cfg = lo_accessTokenKey lcfg /\
  w_trace (run (blitzwareAuth cfg) req') = [EvRespond (Redirect "/login")].
Proof.
  cbn zeta. do 3 (split; [reflexivity|]).
  exact (proj1 (logout_then_protected_routes
                  (ex_logout_config ex_valid_client None) (ex_config ex_valid_client)
                  ex_session_only_config (ex_request (Some ex_session))
                  (ex_request (w_session (run (blitzwareLogout
                     (ex_logout_config ex_valid_client None))
                     (ex_request (Some ex_session)))))
                  ex_session eq_refl eq_refl eq_refl eq_refl)).
Defined.

(** X19. The base URL of the logout page loses exactly one trailing slash:
    a string extended by a slash gives back the string, a string not ending
    in a slash is unchanged, and the length drops by at most one. *)
Theorem strip_trailing_slash_spec (s : string) :
  strip_trailing_slash (s ++ slash) = s /\
  ((forall t, s <> t ++ slash) -> strip_trailing_slash s = s) /\
  String.length s - 1 <= String.length (strip_trailing_slash s) <= String.length s.
Proof.
  repeat split.
  - induction s as [|c s IH]; [done|].
    destruct s as [|c' s]; [done|].
    change (String c (strip_trailing_slash (String c' s ++ slash)) =
            String c (String c' s)).
    by rewrite IH.
  - induction s as [|c s IH]; [done|]. intros Hno.
    destruct s as [|c' s].
    + cbn. destruct (Ascii.eqb_spec c (Ascii.ascii_of_nat 47)) as [->|]; [|done].
      exfalso. by apply (Hno EmptyString).
    + change (strip_trailing_slash (String c (String c' s)))
        with (String c (strip_trailing_slash (String c' s))).
      rewrite IH; [done|]. intros t Heq. apply (Hno (String c t)).
      change (String c (String c' s) = String c (t ++ slash)). by rewrite Heq.
  - induction s as [|c s IH]; [cbn; lia|].
    destruct s as [|c' s].
    + cbn. destruct (Ascii.eqb c (Ascii.ascii_of_nat 47)); cbn; lia.
    + change (strip_trailing_slash (String c (String c' s)))
        with (String c (strip_trailing_slash (String c' s))).
      cbn [String.length] in *. lia.
  - induction s as [|c s IH]; [cbn; lia|].
    destruct s as [|c' s].
    + cbn. destruct (Ascii.eqb c (Ascii.ascii_of_nat 47)); cbn; lia.
    + change (strip_trailing_slash (String c (String c' s)))
        with (String c (strip_trailing_slash (String c' s))).
      cbn [String.length] in *. lia.
Qed.

(** ** From the callback to the protected routes *)



(** X21. A second logout leaves the session as the first one left it. *)
Theorem blitzwareLogout_twice cfg req req' (s : gmap string jsval) :
  req_session req = Some s ->
  follows req' (run (blitzwareLogout cfg) req) ->
  w_session (run (blitzwareLogout cfg) req') = w_session (run (blitzwareLogout cfg) req).
Proof.
  unfold follows. intros Hs Hreq.
  rewrite (run_logout_session cfg req s Hs) in *.
  rewrite (run_logout_session cfg req' _ Hreq).
  by rewrite cleared_session_idempotent.
Qed.

Lemma blitzwareLogout_twice_witness :
  let cfg := ex_logout_config ex_valid_client (Some false) in
  let req := ex_request (Some ex_session) in
  let req' := ex_request (w_session (run (blitzwareLogout cfg) req)) in
  req_session req = Some ex_session /\
  follows req' (run (blitzwareLogout cfg) req) /\
  w_session (run (blitzwareLogout cfg) req') = w_session (run (blitzwareLogout cfg) req).
Proof.
  cbn zeta. do 2 (split; [reflexivity|]).
  exact (blitzwareLogout_twice (ex_logout_config ex_valid_client (Some false))
           (ex_request (Some ex_session))
           (ex_request (w_session (run (blitzwareLogout
              (ex_logout_config ex_valid_client (Some false)))
              (ex_request (Some ex_session)))))
           ex_session eq_refl eq_refl).
Defined.
